(** * Food Analysis API (backend/food_analysis.py)

    A shallow embedding of the request handler [analyse_food] and of the
    helper [extract_json_from_text], with the properties of the service
    stated and proved over it.

    Python values are modelled as the code has them: a [str] is a sequence
    of Unicode code points, [bytes] a sequence of bytes, a [dict] an
    association list in insertion order.  Calls that leave the program (the
    upload's [read], the Gemini client, the logger) are recorded in a trace,
    and a raised exception is a result of its own, so that "never invoked"
    and "never raises" are statements about values. *)

From Stdlib Require Import List NArith ZArith String Ascii Bool Lia.
From Stdlib Require Import DecimalString.
Import ListNotations.

Local Open Scope N_scope.

(* ================================================================== *)
(** * Python strings *)
(* ================================================================== *)

(** A Python [str]: the sequence of its code points. *)
Definition pystr : Type := list N.

(** A literal of the source, given by its ASCII text. *)
Definition py (s : string) : pystr :=
  map N_of_ascii (list_ascii_of_string s).

(** The double quote and the line feed, which a Rocq literal cannot hold
    conveniently. *)
Definition dq : pystr := [34].
Definition nl : pystr := [10].

(** [s.startswith(prefix)]. *)
Fixpoint startswith (s prefix : pystr) {struct prefix} : bool :=
  match prefix with
  | [] => true
  | p :: prefix' =>
      match s with
      | [] => false
      | c :: s' => (c =? p) && startswith s' prefix'
      end
  end.

(** [sub in s]. *)
Fixpoint contains (s sub : pystr) : bool :=
  startswith s sub
  || match s with
     | [] => false
     | _ :: s' => contains s' sub
     end.

(** The scan of [str.replace] for a non-empty [old]: occurrences are
    found from the left and do not overlap.  [skip] counts the characters
    of the occurrence found last that are still to be passed over. *)
Fixpoint replace_scan (old new s : pystr) (skip : nat) : pystr :=
  match s with
  | [] => []
  | c :: s' =>
      match skip with
      | S k => replace_scan old new s' k
      | O =>
          if startswith s old
          then new ++ replace_scan old new s' (pred (List.length old))
          else c :: replace_scan old new s' O
      end
  end.

(** [s.replace(old, new)].  With an empty [old] Python puts [new] before
    every character and at the end. *)
Definition replace (s old new : pystr) : pystr :=
  match old with
  | [] => new ++ flat_map (fun c => c :: new) s
  | _ :: _ => replace_scan old new s O
  end.

(** [c.isspace()] for one code point: the characters [str.strip()]
    removes. *)
Definition isspace (c : N) : bool :=
  ((9 <=? c) && (c <=? 13)) || ((28 <=? c) && (c <=? 32))
  || (c =? 133) || (c =? 160) || (c =? 5760)
  || ((8192 <=? c) && (c <=? 8202))
  || (c =? 8232) || (c =? 8233) || (c =? 8239) || (c =? 8287)
  || (c =? 12288).

Fixpoint lstrip (s : pystr) : pystr :=
  match s with
  | [] => []
  | c :: s' => if isspace c then lstrip s' else s
  end.

Definition rstrip (s : pystr) : pystr := rev (lstrip (rev s)).

(** [s.strip()]. *)
Definition strip (s : pystr) : pystr := rstrip (lstrip s).

(** A non-empty [str] is true. *)
Definition str_truthy (s : pystr) : bool :=
  match s with [] => false | _ :: _ => true end.

(** [str(n)] for an [int]. *)
Definition str_of_int (z : Z) : pystr :=
  py (NilZero.string_of_int (Z.to_int z)).

(** The two code-fence markers of [extract_json_from_text]. *)
Definition fence_json : pystr := py "```json".
Definition fence : pystr := py "```".

(* ================================================================== *)
(** * Python values *)
(* ================================================================== *)

(** A [float], kept as the number its text denotes: not-a-number, an
    infinity, or [digits * 10 ^ exponent] with a sign.  The rounding to
    binary64 is left out; only the test for zero below depends on it. *)
Inductive pyfloat : Type :=
| FNaN
| FInfinity (negative : bool)
| FDecimal (negative : bool) (digits : N) (exponent : Z).

(** Whether the decimal rounds to [0.0] or [-0.0]: it is zero, or at most
    half of the smallest subnormal, [2 ^ -1075]. *)
Definition float_is_zero (f : pyfloat) : bool :=
  match f with
  | FDecimal _ m e =>
      (m =? 0)
      || ((e <? 0)%Z && (m * 2 ^ 1075 <=? 10 ^ Z.to_N (- e)))
  | _ => false
  end.

(** The values [json.loads] builds and the handler returns. *)
Local Set Warnings "-register-all".
Inductive pyvalue : Type :=
| PyNone
| PyBool (b : bool)
| PyInt (z : Z)
| PyFloat (f : pyfloat)
| PyStr (s : pystr)
| PyList (items : list pyvalue)
| PyDict (entries : list (pystr * pyvalue)).

(** Truth value of an object, as [if not x] tests it. *)
Definition truthy (v : pyvalue) : bool :=
  match v with
  | PyNone => false
  | PyBool b => b
  | PyInt z => negb (z =? 0)%Z
  | PyFloat f => negb (float_is_zero f)
  | PyStr s => str_truthy s
  | PyList [] => false
  | PyList (_ :: _) => true
  | PyDict [] => false
  | PyDict (_ :: _) => true
  end.

Fixpoint str_eqb (a b : pystr) : bool :=
  match a, b with
  | [], [] => true
  | x :: a', y :: b' => (x =? y) && str_eqb a' b'
  | _, _ => false
  end.

(** [d[k] = v]: a key already present keeps its place. *)
Fixpoint dict_set (d : list (pystr * pyvalue)) (k : pystr) (v : pyvalue)
  : list (pystr * pyvalue) :=
  match d with
  | [] => [(k, v)]
  | (k', v') :: d' =>
      if str_eqb k' k then (k', v) :: d' else (k', v') :: dict_set d' k v
  end.

(** [d.get(k)]. *)
Fixpoint dict_get (d : list (pystr * pyvalue)) (k : pystr) : option pyvalue :=
  match d with
  | [] => None
  | (k', v') :: d' => if str_eqb k' k then Some v' else dict_get d' k
  end.

(** Field [k] of a value, when the value is a [dict] that has it. *)
Definition field (v : pyvalue) (k : string) : option pyvalue :=
  match v with
  | PyDict d => dict_get d (py k)
  | _ => None
  end.

(* ================================================================== *)
(** * Exceptions, effects and the collaborators *)
(* ================================================================== *)

(** An instance of Python's [Exception]: FastAPI's [HTTPException], or any
    other class, given by its name and by [str(e)]. *)
Inductive pyexc : Type :=
| HTTPException (status_code : Z) (detail : pystr)
| PyException (cls : pystr) (message : pystr).

Definition ValueError (msg : pystr) : pyexc := PyException (py "ValueError") msg.
Definition AttributeError (msg : pystr) : pyexc :=
  PyException (py "AttributeError") msg.

(** [str(e)]. *)
Definition str_exc (e : pyexc) : pystr :=
  match e with
  | HTTPException s d => (str_of_int s ++ py ": " ++ d)%list
  | PyException _ m => m
  end.

(** What a call returns: a value, or the exception it raises. *)
Definition result (A : Type) : Type := (pyexc + A)%type.

Definition bytes : Type := list Byte.byte.

(** The image part of the request to the model:
    [{"mime_type": ..., "data": ...}]. *)
Record image_part : Type := {
  mime_type : pystr;
  data : bytes
}.

(** The [generation_config] dictionary. *)
Record generation_config : Type := {
  temperature : pyfloat;
  top_p : pyfloat;
  max_output_tokens : Z
}.

Inductive level : Type := INFO | WARNING | ERROR.

(** The calls that leave the handler, in the order they are made. *)
Inductive event : Type :=
| FileRead
| GenerateContent (prompt : pystr) (part : image_part)
                  (config : generation_config)
| ResponseResolve
| Log (lvl : level) (msg : pystr).

(** The response object of the model client. *)
Record GenerateContentResponse : Type := {
  resolve : result unit;
  text : result (option pystr)
}.

(** The model client, [genai.GenerativeModel]. *)
Record GenerativeModel : Type := {
  generate_content :
    pystr -> image_part -> generation_config -> result GenerateContentResponse
}.

(** The upload, [fastapi.UploadFile]: the declared media type, absent when
    the part carries no Content-Type header, and what [await file.read()]
    gives. *)
Record UploadFile : Type := {
  content_type : option pystr;
  read : result bytes
}.

(** A computation: the calls it made and its result. *)
Definition Py (A : Type) : Type := (list event * result A)%type.

Definition ret {A : Type} (a : A) : Py A := ([], inr a).

Definition raise {A : Type} (e : pyexc) : Py A := ([], inl e).

Definition bind {A B : Type} (m : Py A) (k : A -> Py B) : Py B :=
  match m with
  | (t, inl e) => (t, inl e)
  | (t, inr a) => let (t', r) := k a in ((t ++ t')%list, r)
  end.

(** [try: body except Exception as e: handler e]. *)
Definition try_except {A : Type} (body : Py A) (handler : pyexc -> Py A)
  : Py A :=
  match body with
  | (t, inl e) => let (t', r) := handler e in ((t ++ t')%list, r)
  | (t, inr a) => (t, inr a)
  end.

(** A call to a collaborator: recorded, with the collaborator's result. *)
Definition call {A : Type} (ev : event) (r : result A) : Py A := ([ev], r).

(** A value or exception that needs no call. *)
Definition lift {A : Type} (r : result A) : Py A := ([], r).

Definition log (lvl : level) (msg : pystr) : Py unit :=
  call (Log lvl msg) (inr tt).

Notation "x <- m ;; k" := (bind m (fun x => k))
  (at level 61, m at next level, right associativity).
Notation "m ;;; k" := (bind m (fun _ => k))
  (at level 61, right associativity).

Definition trace {A : Type} (m : Py A) : list event := fst m.
Definition outcome {A : Type} (m : Py A) : result A := snd m.

(* ================================================================== *)
(** * The service *)
(* ================================================================== *)

(** What FastAPI makes of a run of the handler: a returned value is to
    be rendered as JSON and sent with status 200; an [HTTPException] is
    answered with its status and the body [{"detail": ...}]; any other
    exception leaves the handler unhandled. *)
Inductive http_result : Type :=
| Response (status : Z) (body : pyvalue)
| Returned (v : pyvalue)
| Unhandled (e : pyexc).

Definition respond (r : result pyvalue) : http_result :=
  match r with
  | inr v => Returned v
  | inl (HTTPException s d) => Response s (PyDict [(py "detail", PyStr d)])
  | inl e => Unhandled e
  end.

(** What is sent in the end, status and JSON body.  [renders] stands for
    the rendering of a body by the framework ([json.dumps] with
    [allow_nan=False], then UTF-8): where it fails, as where an exception
    left the handler, the server answers with status 500 and no JSON
    body. *)
Definition sent (renders : pyvalue -> bool) (h : http_result)
  : Z * option pyvalue :=
  match h with
  | Response s b => if renders b then (s, Some b) else (500, None)%Z
  | Returned v => if renders v then (200, Some v)%Z else (500, None)%Z
  | Unhandled _ => (500, None)%Z
  end.

Definition quoted (s : string) : pystr := (dq ++ py s ++ dq)%list.

(** The signs that open the log messages: U+2705, U+274C, and U+26A0 with
    U+FE0F. *)
Definition check_mark : pystr := [9989].
Definition cross_mark : pystr := [10060].
Definition warning_sign : pystr := [9888; 65039].

(** Start of the process: the model client exists only when the
    environment holds a non-empty [GEMINI_API_KEY].  [genai] stands for
    [genai.configure(api_key=...)] followed by
    [genai.GenerativeModel(name)]. *)
Definition load_gemini_model (genai : pystr -> pystr -> GenerativeModel)
    (GEMINI_API_KEY : option pystr) : Py (option GenerativeModel) :=
  match GEMINI_API_KEY with
  | Some key =>
      if str_truthy key
      then
        log INFO
          (check_mark ++ py " Gemini API key loaded successfully.")%list ;;;
        ret (Some (genai key (py "gemini-2.0-flash")))
      else
        log ERROR
          (cross_mark
           ++ py " GEMINI_API_KEY missing in environment variables.")%list ;;;
        ret None
  | None =>
      log ERROR
        (cross_mark
         ++ py " GEMINI_API_KEY missing in environment variables.")%list ;;;
      ret None
  end.

(** The instruction sent with every image. *)
Definition prompt : pystr :=
  (nl
   ++ py "        You are a diet and health expert AI." ++ nl
   ++ py "        Analyze this food image and return a JSON response ONLY"
   ++ py " in this format:" ++ nl
   ++ py "        {" ++ nl
   ++ py "          " ++ quoted "food_name" ++ py ": " ++ quoted "string"
   ++ py "," ++ nl
   ++ py "          " ++ quoted "calories" ++ py ": " ++ quoted "string"
   ++ py "," ++ nl
   ++ py "          " ++ quoted "protein" ++ py ": " ++ quoted "string"
   ++ py "," ++ nl
   ++ py "          " ++ quoted "carbs" ++ py ": " ++ quoted "string"
   ++ py "," ++ nl
   ++ py "          " ++ quoted "fats" ++ py ": " ++ quoted "string"
   ++ py "," ++ nl
   ++ py "          " ++ quoted "fiber" ++ py ": " ++ quoted "string"
   ++ py "," ++ nl
   ++ py "          " ++ quoted "pregnancy_safe" ++ py ": true or false,"
   ++ nl
   ++ py "          " ++ quoted "period_friendly" ++ py ": true or false,"
   ++ nl
   ++ py "          " ++ quoted "recommendations" ++ py ": " ++ quoted "string"
   ++ py "," ++ nl
   ++ py "          " ++ quoted "suggested_foods" ++ py ": [" ++ quoted "food1"
   ++ py ", " ++ quoted "food2" ++ py ", " ++ quoted "food3" ++ py "]" ++ nl
   ++ py "        }" ++ nl
   ++ nl
   ++ py "        The output must be pure JSON, no markdown, no extra text."
   ++ nl
   ++ py "        ")%list.

Definition the_generation_config : generation_config :=
  {| temperature := FDecimal false 2 (-1);
     top_p := FDecimal false 8 (-1);
     max_output_tokens := 512 |}.

(** The report put in place of a response that could not be used. *)
Definition default_report : pyvalue :=
  PyDict
    [ (py "food_name", PyStr (py "Unknown"));
      (py "calories", PyStr (py "N/A"));
      (py "protein", PyStr (py "N/A"));
      (py "carbs", PyStr (py "N/A"));
      (py "fats", PyStr (py "N/A"));
      (py "fiber", PyStr (py "N/A"));
      (py "pregnancy_safe", PyBool false);
      (py "period_friendly", PyBool false);
      (py "recommendations",
        PyStr (py "Could not analyze the food image properly."));
      (py "suggested_foods", PyList []) ].

(** The dictionary a successful request returns. *)
Definition envelope (report : pyvalue) : pyvalue :=
  PyDict
    [ (py "success", PyBool true);
      (py "source", PyStr (py "Gemini"));
      (py "report", report) ].

Section Service.

(** [json.loads] of Python's standard library, taken as it is: for every
    text it returns a value or raises. *)
Variable json_loads : pystr -> result pyvalue.

(** The module-level [gemini_model]: [None] when no key was configured,
    a client object otherwise, which is true where it is tested. *)
Variable gemini_model : option GenerativeModel.

(** [extract_json_from_text]: [None] ([PyNone]) stands for failure. *)
Definition extract_json_from_text (text : pystr) : Py pyvalue :=
  try_except
    (let cleaned :=
       strip (replace (replace text (py "```json") []) (py "```") []) in
     lift (json_loads cleaned))
    (fun _ =>
       log WARNING
         (warning_sign
          ++ py " Could not parse JSON, returning raw text.")%list ;;;
       ret PyNone).

(** The handler of [POST /analyse]. *)
Definition analyse_food (file : UploadFile) : Py pyvalue :=
  match gemini_model with
  | None => raise (HTTPException 503 (py "Gemini AI not configured."))
  | Some model =>
      match content_type file with
      | None =>
          (* [None.startswith], outside the [try] *)
          raise (AttributeError
                   (py "'NoneType' object has no attribute 'startswith'"))
      | Some ctype =>
          if negb (startswith ctype (py "image/"))
          then raise (HTTPException 400
                        (py "Invalid file type. Upload an image."))
          else
            try_except
              (image_data <- call FileRead (read file) ;;
               let part := {| mime_type := ctype; data := image_data |} in
               response <-
                 call (GenerateContent prompt part the_generation_config)
                      (generate_content model prompt part
                         the_generation_config) ;;
               call ResponseResolve (resolve response) ;;;
               response_text <- lift (text response) ;;
               let result_text :=
                 match response_text with
                 | Some t => if str_truthy t then Some (strip t) else None
                 | None => None
                 end in
               (* [if not result_text]: absent, or empty once stripped *)
               match result_text with
               | Some ((_ :: _) as result_text) =>
                   parsed_data <- extract_json_from_text result_text ;;
                   parsed_data <-
                     (if negb (truthy parsed_data)
                      then
                        log WARNING
                          (py "Raw Gemini output: " ++ result_text)%list ;;;
                        ret default_report
                      else ret parsed_data) ;;
                   ret (envelope parsed_data)
               | _ =>
                   raise (ValueError
                            (py "Empty analysis response from Gemini API"))
               end)
              (fun e =>
                 log ERROR
                   (cross_mark ++ py " Error analyzing food image: "
                    ++ str_exc e)%list ;;;
                 raise (HTTPException 500
                          (py "Food analysis failed: " ++ str_exc e)%list))
      end
  end.

End Service.

(* ================================================================== *)
(** * A reference decoder for [json.loads] *)
(* ================================================================== *)

(** The decoder of Python's [json] module with its default settings, as a
    machine that reads the text one character at a time: strict strings,
    [NaN], [Infinity] and [-Infinity] accepted, the last of several equal
    keys kept, nothing but white space around the value.  It raises where
    the interpreter's limits are passed: an integer of more digits than
    the interpreter converts, and more containers open at once than the
    recursion limit leaves room for.  A float too large becomes an
    infinity and one too small zero; otherwise a float is kept as the
    decimal of its text.  The text of the error messages is not part of
    the model. *)
Module json.

(** The interpreter's limits: [sys.get_int_max_str_digits()], where 0
    means no limit, and the number of containers that can be open at once
    before a [RecursionError], which is [sys.getrecursionlimit()] less the
    frames in use where [json.loads] is called. *)
Record limits : Type := {
  int_max_str_digits : nat;
  recursion_room : nat
}.

(** CPython's default for the digits, and a default recursion limit of
    1000 with a hundred frames in use. *)
Definition default_limits : limits :=
  {| int_max_str_digits := 4300; recursion_room := 900 |}.

(** White space between tokens. *)
Definition is_ws (c : N) : bool :=
  (c =? 32) || (c =? 9) || (c =? 10) || (c =? 13).

Definition is_digit (c : N) : bool := (48 <=? c) && (c <=? 57).

Definition hex_value (c : N) : option N :=
  if (48 <=? c) && (c <=? 57) then Some (c - 48)
  else if (97 <=? c) && (c <=? 102) then Some (c - 87)
  else if (65 <=? c) && (c <=? 70) then Some (c - 55)
  else None.

Definition is_high_surrogate (u : N) : bool := (55296 <=? u) && (u <=? 56319).
Definition is_low_surrogate (u : N) : bool := (56320 <=? u) && (u <=? 57343).
Definition join_surrogates (hi lo : N) : N :=
  65536 + (hi - 55296) * 1024 + (lo - 56320).

(** A container that is still open. *)
Inductive frame : Type :=
| ListFrame (items : list pyvalue)
| DictFrame (entries : list (pystr * pyvalue)) (key : option pystr).

(** Where a number stands. *)
Inductive numstate : Type :=
| NMinus
| NZero (neg : bool)
| NInt (neg : bool) (m : N) (digits : nat)
| NDot (neg : bool) (m : N)
| NFrac (neg : bool) (m : N) (places : Z)
| NE (neg : bool) (m : N) (e10 : Z)
| NESign (neg : bool) (m : N) (e10 : Z) (eneg : bool)
| NExp (neg : bool) (m : N) (e10 : Z) (eneg : bool) (x : N).

(** Where a string stands: among its characters, after a backslash, or
    [k] digits into a [\uXXXX] escape. *)
Inductive strstate : Type :=
| SChars
| SEscape
| SHex (k : nat) (acc : N).

(** What the machine is reading or expects next. *)
Inductive lex : Type :=
| Value
| FirstItem
| FirstKey
| NextKey
| Colon
| After
| Str (is_key : bool) (acc : pystr) (pending : option N) (ss : strstate)
| Num (n : numstate)
| Lit (rest : pystr) (v : pyvalue).

Inductive state : Type :=
| Fail
| Finished (v : pyvalue)
| Run (stack : list frame) (l : lex).

(** Whether [digits * 10 ^ exponent] rounds to an infinity: it is at
    least [2 ^ 1024 - 2 ^ 970], half a step above the largest float. *)
Definition float_overflows (m : N) (e : Z) : bool :=
  let bound := 2 ^ 1024 - 2 ^ 970 in
  if (e <? 0)%Z then bound * 10 ^ Z.to_N (- e) <=? m
  else bound <=? m * 10 ^ Z.to_N e.

(** [float(text)] for the decimal [digits * 10 ^ exponent] of a text. *)
Definition make_float (neg : bool) (m : N) (e : Z) : pyfloat :=
  if float_overflows m e then FInfinity neg
  else if float_is_zero (FDecimal neg m e) then FDecimal neg 0 0
  else FDecimal neg m e.

Section Decoder.

Variable lim : limits.

(** [int(text)] raises for more digits than the limit. *)
Definition digits_allowed (digits : nat) : bool :=
  (int_max_str_digits lim =? 0)%nat
  || (digits <=? int_max_str_digits lim)%nat.

(** The value of a number that may end here. *)
Definition num_value (n : numstate) : option pyvalue :=
  let int_of (neg : bool) (m : N) :=
    PyInt (if neg then - Z.of_N m else Z.of_N m)%Z in
  match n with
  | NZero neg => Some (int_of neg 0)
  | NInt neg m digits =>
      if digits_allowed digits then Some (int_of neg m) else None
  | NFrac neg m places => Some (PyFloat (make_float neg m (- places)))
  | NExp neg m e10 eneg x =>
      Some (PyFloat
              (make_float neg m
                 (if eneg then e10 - Z.of_N x else e10 + Z.of_N x)%Z))
  | _ => None
  end.

(** A complete value goes to the container that waits for it, or ends
    the text. *)
Definition deliver (v : pyvalue) (stack : list frame) : state :=
  match stack with
  | [] => Finished v
  | ListFrame items :: up => Run (ListFrame (items ++ [v]) :: up) After
  | DictFrame d (Some k) :: up =>
      Run (DictFrame (dict_set d k v) None :: up) After
  | DictFrame _ None :: _ => Fail
  end.

(** Whether one more container can be opened. *)
Definition has_room (stack : list frame) : bool :=
  (List.length stack <? recursion_room lim)%nat.

(** First character of a value. *)
Definition begin_value (stack : list frame) (c : N) : state :=
  if c =? 34 then Run stack (Str false [] None SChars)
  else if c =? 123 then
    if has_room stack then Run (DictFrame [] None :: stack) FirstKey
    else Fail
  else if c =? 91 then
    if has_room stack then Run (ListFrame [] :: stack) FirstItem
    else Fail
  else if c =? 45 then Run stack (Num NMinus)
  else if c =? 48 then Run stack (Num (NZero false))
  else if is_digit c then Run stack (Num (NInt false (c - 48) 1))
  else if c =? 110 then Run stack (Lit (py "ull") PyNone)
  else if c =? 116 then Run stack (Lit (py "rue") (PyBool true))
  else if c =? 102 then Run stack (Lit (py "alse") (PyBool false))
  else if c =? 78 then Run stack (Lit (py "aN") (PyFloat FNaN))
  else if c =? 73 then
    Run stack (Lit (py "nfinity") (PyFloat (FInfinity false)))
  else Fail.

(** After a complete value: white space, a comma or the end of the
    container; after the outermost value only white space. *)
Definition after_value (s : state) (c : N) : state :=
  match s with
  | Finished v => if is_ws c then Finished v else Fail
  | Run stack After =>
      if is_ws c then Run stack After
      else if c =? 44 then
        match stack with
        | ListFrame _ :: _ => Run stack Value
        | DictFrame _ None :: _ => Run stack NextKey
        | _ => Fail
        end
      else if c =? 93 then
        match stack with
        | ListFrame items :: up => deliver (PyList items) up
        | _ => Fail
        end
      else if c =? 125 then
        match stack with
        | DictFrame d None :: up => deliver (PyDict d) up
        | _ => Fail
        end
      else Fail
  | _ => Fail
  end.

(** What a character does to a number: it goes on, it cannot follow, or
    the number ended before it. *)
Inductive numres : Type :=
| NumMore (n : numstate)
| NumBad
| NumEnd.

Definition num_step (n : numstate) (c : N) : numres :=
  let d := c - 48 in
  let is_e := (c =? 101) || (c =? 69) in
  match n with
  | NMinus =>
      if c =? 48 then NumMore (NZero true)
      else if is_digit c then NumMore (NInt true d 1)
      else NumBad
  | NZero neg =>
      if c =? 46 then NumMore (NDot neg 0)
      else if is_e then NumMore (NE neg 0 0)
      else NumEnd
  | NInt neg m digits =>
      if is_digit c then NumMore (NInt neg (10 * m + d) (S digits))
      else if c =? 46 then NumMore (NDot neg m)
      else if is_e then NumMore (NE neg m 0)
      else NumEnd
  | NDot neg m =>
      if is_digit c then NumMore (NFrac neg (10 * m + d) 1)
      else NumBad
  | NFrac neg m places =>
      if is_digit c then NumMore (NFrac neg (10 * m + d) (places + 1))
      else if is_e then NumMore (NE neg m (- places))
      else NumEnd
  | NE neg m e10 =>
      if c =? 43 then NumMore (NESign neg m e10 false)
      else if c =? 45 then NumMore (NESign neg m e10 true)
      else if is_digit c then NumMore (NExp neg m e10 false d)
      else NumBad
  | NESign neg m e10 eneg =>
      if is_digit c then NumMore (NExp neg m e10 eneg d)
      else NumBad
  | NExp neg m e10 eneg x =>
      if is_digit c then NumMore (NExp neg m e10 eneg (10 * x + d))
      else NumEnd
  end.

(** A number at the character [c]. *)
Definition num_char (stack : list frame) (n : numstate) (c : N) : state :=
  match num_step n c with
  | NumMore n' => Run stack (Num n')
  | NumBad => Fail
  | NumEnd =>
      match num_value n with
      | Some v => after_value (deliver v stack) c
      | None => Fail
      end
  end.

(** The character of a simple escape. *)
Definition escape_char (c : N) : option N :=
  if c =? 34 then Some 34
  else if c =? 92 then Some 92
  else if c =? 47 then Some 47
  else if c =? 98 then Some 8
  else if c =? 102 then Some 12
  else if c =? 110 then Some 10
  else if c =? 114 then Some 13
  else if c =? 116 then Some 9
  else None.

(** A high surrogate waits for the escape that may complete it. *)
Definition flush (acc : pystr) (pending : option N) : pystr :=
  match pending with
  | Some hi => acc ++ [hi]
  | None => acc
  end.

Definition end_string (stack : list frame) (is_key : bool) (s : pystr)
  : state :=
  if is_key then
    match stack with
    | DictFrame d None :: up => Run (DictFrame d (Some s) :: up) Colon
    | _ => Fail
    end
  else deliver (PyStr s) stack.

Definition str_step (stack : list frame) (is_key : bool) (acc : pystr)
    (pending : option N) (ss : strstate) (c : N) : state :=
  match ss with
  | SChars =>
      if c =? 34 then end_string stack is_key (flush acc pending)
      else if c =? 92 then Run stack (Str is_key acc pending SEscape)
      else if c <=? 31 then Fail
      else Run stack (Str is_key (flush acc pending ++ [c]) None SChars)
  | SEscape =>
      if c =? 117 then Run stack (Str is_key acc pending (SHex 0 0))
      else
        match escape_char c with
        | Some e =>
            Run stack (Str is_key (flush acc pending ++ [e]) None SChars)
        | None => Fail
        end
  | SHex k u =>
      match hex_value c with
      | None => Fail
      | Some h =>
          let u := 16 * u + h in
          match k with
          | 3%nat =>
              match pending with
              | Some hi =>
                  if is_low_surrogate u
                  then Run stack
                         (Str is_key (acc ++ [join_surrogates hi u]) None
                            SChars)
                  else if is_high_surrogate u
                  then Run stack (Str is_key (acc ++ [hi]) (Some u) SChars)
                  else Run stack (Str is_key (acc ++ [hi; u]) None SChars)
              | None =>
                  if is_high_surrogate u
                  then Run stack (Str is_key acc (Some u) SChars)
                  else Run stack (Str is_key (acc ++ [u]) None SChars)
              end
          | _ => Run stack (Str is_key acc pending (SHex (S k) u))
          end
      end
  end.

(** One character. *)
Definition step (s : state) (c : N) : state :=
  match s with
  | Fail => Fail
  | Finished _ => after_value s c
  | Run stack l =>
      match l with
      | Value => if is_ws c then s else begin_value stack c
      | FirstItem =>
          if is_ws c then s
          else if c =? 93 then
            match stack with
            | ListFrame items :: up => deliver (PyList items) up
            | _ => Fail
            end
          else begin_value stack c
      | FirstKey =>
          if is_ws c then s
          else if c =? 125 then
            match stack with
            | DictFrame d None :: up => deliver (PyDict d) up
            | _ => Fail
            end
          else if c =? 34 then Run stack (Str true [] None SChars)
          else Fail
      | NextKey =>
          if is_ws c then s
          else if c =? 34 then Run stack (Str true [] None SChars)
          else Fail
      | Colon =>
          if is_ws c then s
          else if c =? 58 then Run stack Value
          else Fail
      | After => after_value s c
      | Str is_key acc pending ss => str_step stack is_key acc pending ss c
      | Num n =>
          match n, c =? 73 with
          | NMinus, true =>
              (* "-Infinity" *)
              Run stack (Lit (py "nfinity") (PyFloat (FInfinity true)))
          | _, _ => num_char stack n c
          end
      | Lit rest v =>
          match rest with
          | [] => Fail
          | x :: rest' =>
              if c =? x then
                match rest' with
                | [] => deliver v stack
                | _ :: _ => Run stack (Lit rest' v)
                end
              else Fail
          end
      end
  end.

Definition JSONDecodeError : pyexc :=
  PyException (py "JSONDecodeError") (py "Expecting value").

(** End of the text: a value must be complete. *)
Definition finish (s : state) : result pyvalue :=
  match s with
  | Finished v => inr v
  | Run stack (Num n) =>
      match stack, num_value n with
      | [], Some v => inr v
      | _, _ => inl JSONDecodeError
      end
  | _ => inl JSONDecodeError
  end.

Definition run (s : state) (text : pystr) : state := fold_left step text s.

(** The machine before the first character. *)
Definition start : state := Run [] Value.

(** [json.loads(text)] in an interpreter with the limits [lim]. *)
Definition loads_within (text : pystr) : result pyvalue :=
  finish (run start text).

End Decoder.

(** [json.loads(text)] with the default limits. *)
Definition loads : pystr -> result pyvalue := loads_within default_limits.

(** The characters a literal still expects are never white space. *)
Definition expects_no_space (s : state) : Prop :=
  match s with
  | Run _ (Lit rest _) => Forall (fun c => isspace c = false) rest
  | _ => True
  end.

End json.

(* ================================================================== *)
(** * The notions the properties are stated with *)
(* ================================================================== *)

(** The text of [extract_json_from_text] before it is parsed. *)
Definition cleaned (text : pystr) : pystr :=
  strip (replace (replace text fence_json []) fence []).

(** A response wrapped in a code fence. *)
Definition wrap (x : pystr) : pystr := (fence_json ++ x ++ fence)%list.

(** [t] is [s] without each occurrence of the marker [m], the occurrences
    taken from the left and not overlapping. *)
Inductive removed (m : pystr) : pystr -> pystr -> Prop :=
| removed_end : removed m [] []
| removed_here (s t : pystr) :
    removed m s t -> removed m (m ++ s) t
| removed_next (c : N) (s t : pystr) :
    startswith (c :: s) m = false ->
    removed m s t -> removed m (c :: s) (c :: t).

Definition all_space (w : pystr) : Prop := Forall (fun c => isspace c = true) w.

(** [t] is [s] without the white space around it. *)
Definition trimmed (s t : pystr) : Prop :=
  exists w1 w2 : pystr,
    s = (w1 ++ t ++ w2)%list /\ all_space w1 /\ all_space w2
    /\ (forall c t', t = c :: t' -> isspace c = false)
    /\ (forall t' c, t = (t' ++ [c])%list -> isspace c = false).

(** What is left of a response text for the parser, in the words of the
    specification: the markers ["```json"] and ["```"] removed, then the
    white space around trimmed. *)
Definition fences_removed_and_trimmed (text c : pystr) : Prop :=
  exists a b : pystr,
    removed fence_json text a /\ removed fence a b /\ trimmed b c.

(** The ways a request for an image can fail once the handler is past its
    two checks, each with the exception that is caught. *)
Inductive analysis_fails (model : GenerativeModel) (file : UploadFile)
    (ctype : pystr) : pyexc -> Prop :=
| read_raises (e : pyexc) :
    read file = inl e -> analysis_fails model file ctype e
| generate_content_raises (image_data : bytes) (e : pyexc) :
    read file = inr image_data ->
    generate_content model prompt
      {| mime_type := ctype; data := image_data |} the_generation_config
    = inl e ->
    analysis_fails model file ctype e
| resolve_raises (image_data : bytes) (response : GenerateContentResponse)
    (e : pyexc) :
    read file = inr image_data ->
    generate_content model prompt
      {| mime_type := ctype; data := image_data |} the_generation_config
    = inr response ->
    resolve response = inl e ->
    analysis_fails model file ctype e
| text_raises (image_data : bytes) (response : GenerateContentResponse)
    (e : pyexc) :
    read file = inr image_data ->
    generate_content model prompt
      {| mime_type := ctype; data := image_data |} the_generation_config
    = inr response ->
    resolve response = inr tt ->
    text response = inl e ->
    analysis_fails model file ctype e
| text_empty (image_data : bytes) (response : GenerateContentResponse)
    (t : option pystr) :
    read file = inr image_data ->
    generate_content model prompt
      {| mime_type := ctype; data := image_data |} the_generation_config
    = inr response ->
    resolve response = inr tt ->
    text response = inr t ->
    (t = None \/ exists s, t = Some s /\ strip s = []) ->
    analysis_fails model file ctype
      (ValueError (py "Empty analysis response from Gemini API")).

(** The body FastAPI sends for an [HTTPException]. *)
Definition detail_body (detail : pystr) : pyvalue :=
  PyDict [(py "detail", PyStr detail)].

(* ================================================================== *)
(** * Requests and model clients to run the service on *)
(* ================================================================== *)

(** An upload whose payload can be read. *)
Definition upload (ctype : option pystr) (payload : bytes) : UploadFile :=
  {| content_type := ctype; read := inr payload |}.

(** A client whose answer is ready and has the given text. *)
Definition answering (t : option pystr) : GenerativeModel :=
  {| generate_content := fun _ _ _ =>
       inr {| resolve := inr tt; text := inr t |} |}.

(** A client whose call raises. *)
Definition raising (e : pyexc) : GenerativeModel :=
  {| generate_content := fun _ _ _ => inl e |}.

(** The exception of a call that cannot reach the service. *)
Definition network_down : pyexc :=
  PyException (py "ConnectionError") (py "network is unreachable").

Definition png_bytes : bytes := [Byte.x89; Byte.x50; Byte.x4e; Byte.x47].

Definition apple_png : UploadFile := upload (Some (py "image/png")) png_bytes.
Definition doc_pdf : UploadFile := upload (Some (py "application/pdf")) [].

(** The answer of the scenario of the specification. *)
Definition apple_json : pystr :=
  (py "{" ++ quoted "food_name" ++ py ":" ++ quoted "Apple" ++ py ","
   ++ quoted "calories" ++ py ":" ++ quoted "95 kcal" ++ py ","
   ++ quoted "protein" ++ py ":" ++ quoted "0.5g" ++ py ","
   ++ quoted "carbs" ++ py ":" ++ quoted "25g" ++ py ","
   ++ quoted "fats" ++ py ":" ++ quoted "0.3g" ++ py ","
   ++ quoted "fiber" ++ py ":" ++ quoted "4g" ++ py ","
   ++ quoted "pregnancy_safe" ++ py ":true,"
   ++ quoted "period_friendly" ++ py ":true,"
   ++ quoted "recommendations" ++ py ":" ++ quoted "Good snack." ++ py ","
   ++ quoted "suggested_foods" ++ py ":[" ++ quoted "banana" ++ py ","
   ++ quoted "pear" ++ py "]}")%list.

Definition apple_report : pyvalue :=
  PyDict
    [ (py "food_name", PyStr (py "Apple"));
      (py "calories", PyStr (py "95 kcal"));
      (py "protein", PyStr (py "0.5g"));
      (py "carbs", PyStr (py "25g"));
      (py "fats", PyStr (py "0.3g"));
      (py "fiber", PyStr (py "4g"));
      (py "pregnancy_safe", PyBool true);
      (py "period_friendly", PyBool true);
      (py "recommendations", PyStr (py "Good snack."));
      (py "suggested_foods",
        PyList [PyStr (py "banana"); PyStr (py "pear")]) ].

(** A well-formed report whose advice mentions a code fence. *)
Definition fenced_advice_json : pystr :=
  (py "{" ++ quoted "food_name" ++ py ":" ++ quoted "Apple" ++ py ","
   ++ quoted "recommendations" ++ py ":" ++ quoted "Avoid ``` in text"
   ++ py "}")%list.

(** What that text says, and what is made of it. *)
Definition fenced_advice_given : pyvalue :=
  PyDict [ (py "food_name", PyStr (py "Apple"));
           (py "recommendations", PyStr (py "Avoid ``` in text")) ].

Definition fenced_advice_returned : pyvalue :=
  PyDict [ (py "food_name", PyStr (py "Apple"));
           (py "recommendations", PyStr (py "Avoid  in text")) ].

(** An interpreter that converts integers of any length, and a report
    whose calories are an integer of 4301 digits. *)
Definition no_digit_limit : json.limits :=
  {| json.int_max_str_digits := 0; json.recursion_room := 900 |}.

Definition long_integer_json : pystr :=
  (py "{" ++ quoted "calories" ++ py ":" ++ repeat 49 4301 ++ py "}")%list.

(* ================================================================== *)
(** * Observers of a run *)
(* ================================================================== *)

(** The kinds of call in a trace. *)
Definition is_file_read (ev : event) : bool :=
  match ev with FileRead => true | _ => false end.

Definition is_model_call (ev : event) : bool :=
  match ev with GenerateContent _ _ _ => true | _ => false end.

Definition is_error_log (ev : event) : bool :=
  match ev with Log ERROR _ => true | _ => false end.

(** The handler goes past its two checks: a client is configured and the
    declared media type begins with "image/". *)
Definition accepted (gemini_model : option GenerativeModel)
    (file : UploadFile) : bool :=
  match gemini_model, content_type file with
  | Some _, Some ctype => startswith ctype (py "image/")
  | _, _ => false
  end.

(** The value [extract_json_from_text] returns for a text, with
    [json.loads] as given. *)
Definition extracted (json_loads : pystr -> result pyvalue) (text : pystr)
  : pyvalue :=
  match json_loads (cleaned text) with
  | inr v => v
  | inl _ => PyNone
  end.

(** A renderer that refuses a float that is not finite, as
    [json.dumps(..., allow_nan=False)] does, and nothing else.  The
    theorems hold for every renderer; this one serves to run them. *)
Fixpoint finite_floats (v : pyvalue) : bool :=
  match v with
  | PyFloat (FDecimal _ m e) => negb (json.float_overflows m e)
  | PyFloat _ => false
  | PyList items => forallb finite_floats items
  | PyDict entries =>
      forallb (fun kv => match kv with (_, x) => finite_floats x end) entries
  | _ => true
  end.

(* ================================================================== *)
(** * Properties of the string operations *)
(* ================================================================== *)

Section StringFacts.

Lemma startswith_length (s p : pystr) :
  startswith s p = true -> (List.length p <= List.length s)%nat.
Proof.
  revert s; induction p as [|x p IH]; intros s H; simpl.
  - lia.
  - destruct s as [|c s]; simpl in H; [discriminate|].
    apply andb_true_iff in H as [_ H]. apply IH in H. simpl; lia.
Qed.

Lemma startswith_app (s t p : pystr) :
  startswith s p = true -> startswith (s ++ t) p = true.
Proof.
  revert s; induction p as [|x p IH]; intros s H; simpl; [reflexivity|].
  destruct s as [|c s]; simpl in *; [discriminate|].
  apply andb_true_iff in H as [Hc H]. rewrite Hc, (IH _ H). reflexivity.
Qed.

(** An occurrence that fits into [s] does not look at what follows. *)
Lemma startswith_app_fits (s t p : pystr) :
  (List.length p <= List.length s)%nat ->
  startswith (s ++ t) p = startswith s p.
Proof.
  revert s; induction p as [|x p IH]; intros s H; simpl; [reflexivity|].
  destruct s as [|c s]; simpl in *; [lia|].
  rewrite IH by lia. reflexivity.
Qed.

Lemma startswith_refl (p t : pystr) : startswith (p ++ t) p = true.
Proof.
  induction p as [|x p IH]; simpl; [reflexivity|].
  rewrite N.eqb_refl, IH. reflexivity.
Qed.

(** The equations of the scan, as [str.replace] is usually described. *)
Lemma replace_scan_skip (old new s : pystr) (k : nat) :
  replace_scan old new s k = replace_scan old new (skipn k s) O.
Proof.
  revert k; induction s as [|c s IH]; intros [|k]; simpl; auto.
Qed.

Lemma replace_scan_hit (old new s : pystr) :
  old <> [] -> startswith s old = true ->
  replace_scan old new s O
  = new ++ replace_scan old new (skipn (List.length old) s) O.
Proof.
  intros Hold H. destruct s as [|c s].
  - destruct old; [congruence | discriminate].
  - cbn [replace_scan]. rewrite H. f_equal.
    rewrite replace_scan_skip.
    destruct old as [|x old]; [congruence|]. reflexivity.
Qed.

Lemma replace_scan_miss (old new : pystr) (c : N) (s : pystr) :
  startswith (c :: s) old = false ->
  replace_scan old new (c :: s) O = c :: replace_scan old new s O.
Proof. intros H. cbn [replace_scan]. rewrite H. reflexivity. Qed.

Lemma contains_cons (c : N) (s sub : pystr) :
  contains (c :: s) sub = false ->
  startswith (c :: s) sub = false /\ contains s sub = false.
Proof.
  cbn [contains]. intros H. apply orb_false_iff in H. exact H.
Qed.

(** Nothing to replace, nothing changed. *)
Lemma replace_scan_absent (old new s : pystr) :
  contains s old = false -> replace_scan old new s O = s.
Proof.
  induction s as [|c s IH]; intros H; [reflexivity|].
  apply contains_cons in H as [Hm Hc].
  rewrite replace_scan_miss by exact Hm. rewrite IH by exact Hc. reflexivity.
Qed.

Lemma startswith_prefix_of_pattern (s p q : pystr) :
  startswith s (p ++ q) = true -> startswith s p = true.
Proof.
  revert s; induction p as [|x p IH]; intros s H; simpl; [reflexivity|].
  destruct s as [|c s]; simpl in *; [discriminate|].
  apply andb_true_iff in H as [Hc H]. rewrite Hc, (IH _ H). reflexivity.
Qed.

Lemma contains_longer_pattern (s p q : pystr) :
  contains s p = false -> contains s (p ++ q) = false.
Proof.
  induction s as [|c s IH]; cbn [contains]; intros H;
    apply orb_false_iff in H as [Hm Hc]; apply orb_false_iff; split; auto;
    destruct (startswith _ (p ++ q)) eqn:E; auto;
    apply startswith_prefix_of_pattern in E; congruence.
Qed.

Lemma replace_absent (s old new : pystr) :
  old <> [] -> contains s old = false -> replace s old new = s.
Proof.
  intros Hold H. destruct old as [|x old]; [congruence|].
  unfold replace. apply replace_scan_absent, H.
Qed.

End StringFacts.

(* ================================================================== *)
(** * The code-fence markers *)
(* ================================================================== *)

Section Fences.

Lemma replace_fence_json (s new : pystr) :
  replace s fence_json new = replace_scan fence_json new s O.
Proof. reflexivity. Qed.

Lemma replace_fence (s new : pystr) :
  replace s fence new = replace_scan fence new s O.
Proof. reflexivity. Qed.

(** The opening marker of a wrapped text is the first occurrence. *)
Lemma replace_fence_json_wrap (x y : pystr) :
  replace (fence_json ++ x) fence_json y = (y ++ replace x fence_json y)%list.
Proof.
  rewrite !replace_fence_json.
  rewrite replace_scan_hit; [|discriminate|apply startswith_refl].
  rewrite skipn_app, skipn_all, Nat.sub_diag. reflexivity.
Qed.

(** ["```json"] cannot end inside a closing ["```"]. *)
Lemma startswith_fence_json_closing (x : pystr) :
  startswith (x ++ fence) fence_json = startswith x fence_json.
Proof.
  destruct (Nat.le_gt_cases (List.length fence_json) (List.length x))
    as [Hlen|Hlen].
  - apply startswith_app_fits, Hlen.
  - change (List.length fence_json) with 7%nat in Hlen.
    do 7 (destruct x as [|? x];
          [cbn; rewrite ?andb_false_r; reflexivity|]).
    simpl in Hlen. lia.
Qed.

Lemma replace_scan_fence_json_closing (x : pystr) (k : nat) :
  (k <= List.length x)%nat ->
  replace_scan fence_json [] (x ++ fence) k
  = (replace_scan fence_json [] x k ++ fence)%list.
Proof.
  revert k; induction x as [|c x IH]; intros k Hk.
  - assert (k = O) by (simpl in Hk; lia). subst k. reflexivity.
  - destruct k as [|k].
    + cbn [replace_scan app].
      change (startswith (c :: (x ++ fence)%list) fence_json)
        with (startswith ((c :: x) ++ fence) fence_json).
      rewrite startswith_fence_json_closing.
      destruct (startswith (c :: x) fence_json) eqn:E.
      * apply startswith_length in E. cbn in E |- *.
        apply IH. lia.
      * cbn [app]. f_equal. apply IH. lia.
    + cbn [replace_scan app]. apply IH. simpl in Hk. lia.
Qed.

Ltac short_backticks :=
  cbn; rewrite ?andb_true_r, ?andb_false_r;
  repeat match goal with
    | |- context [?a =? 96] =>
        let E := fresh "E" in
        destruct (a =? 96) eqn:E; [apply N.eqb_eq in E; subst a|]; cbn
    end;
  reflexivity.

(** A closing ["```"] disappears, whatever precedes it. *)
Lemma replace_scan_fence_closing (y : pystr) (k : nat) :
  (k <= List.length y)%nat ->
  replace_scan fence [] (y ++ fence) k = replace_scan fence [] y k.
Proof.
  revert k; induction y as [|c y IH]; intros k Hk.
  - assert (k = O) by (simpl in Hk; lia). subst k. reflexivity.
  - destruct k as [|k].
    2:{ cbn [replace_scan app]. apply IH. simpl in Hk. lia. }
    destruct (startswith (c :: y) fence) eqn:E.
    + cbn [replace_scan app].
      change (startswith (c :: (y ++ fence)%list) fence)
        with (startswith ((c :: y) ++ fence) fence).
      rewrite (startswith_app _ fence _ E), E.
      apply startswith_length in E. cbn in E |- *.
      apply IH. lia.
    + destruct y as [|d [|e y]].
      * (* one backtick before the marker, or none *)
        clear; short_backticks.
      * clear; short_backticks.
      * assert (E' : startswith ((c :: d :: e :: y) ++ fence) fence = false).
        { rewrite startswith_app_fits; [exact E|]. cbn. lia. }
        cbn [replace_scan app] in *. rewrite E', E. f_equal.
        apply (IH O). simpl. lia.
Qed.

(** Wrapping a text in a code fence does not change what is parsed. *)
Lemma cleaned_wrap (x : pystr) : cleaned (wrap x) = cleaned x.
Proof.
  unfold cleaned, wrap.
  rewrite replace_fence_json_wrap. cbn [app].
  rewrite replace_fence_json, replace_scan_fence_json_closing by lia.
  rewrite <- replace_fence_json, !replace_fence.
  rewrite replace_scan_fence_closing by lia. reflexivity.
Qed.

(** A text without ["```"] is parsed as it is, trimmed. *)
Lemma cleaned_without_fence (text : pystr) :
  contains text fence = false -> cleaned text = strip text.
Proof.
  intros H. unfold cleaned.
  rewrite (replace_absent text fence_json);
    [|discriminate|apply (contains_longer_pattern text fence (py "json") H)].
  rewrite replace_absent; [reflexivity|discriminate|exact H].
Qed.

End Fences.

(* ================================================================== *)
(** * Trimming and removing *)
(* ================================================================== *)


Section Trimming.

Lemma startswith_split (s m : pystr) :
  startswith s m = true -> s = (m ++ skipn (List.length m) s)%list.
Proof.
  revert s; induction m as [|x m IH]; intros s H; [reflexivity|].
  destruct s as [|c s]; simpl in H; [discriminate|].
  apply andb_true_iff in H as [Hc H]. apply N.eqb_eq in Hc. subst x.
  simpl. f_equal. apply IH, H.
Qed.

Lemma replace_scan_marker_app (m s new : pystr) :
  m <> [] ->
  replace_scan m new (m ++ s) O = (new ++ replace_scan m new s O)%list.
Proof.
  intros Hm. rewrite replace_scan_hit; [|exact Hm|apply startswith_refl].
  rewrite skipn_app, skipn_all, Nat.sub_diag. reflexivity.
Qed.

Lemma removed_unique (m s t : pystr) :
  m <> [] -> removed m s t -> t = replace_scan m [] s O.
Proof.
  intros Hm H; induction H.
  - reflexivity.
  - rewrite replace_scan_marker_app by exact Hm. exact IHremoved.
  - rewrite replace_scan_miss by assumption. f_equal. exact IHremoved.
Qed.

Lemma removed_replace_scan (m : pystr) :
  m <> [] -> forall s, removed m s (replace_scan m [] s O).
Proof.
  intros Hm s.
  remember (List.length s) as n eqn:Hn.
  revert s Hn; induction n as [n IH] using lt_wf_ind; intros s Hn.
  destruct (startswith s m) eqn:E.
  - rewrite (startswith_split _ _ E).
    rewrite replace_scan_marker_app by exact Hm.
    apply removed_here. apply (IH (List.length (skipn (List.length m) s))).
    + rewrite length_skipn. subst n.
      apply startswith_length in E.
      destruct m; [congruence|]. simpl in *. lia.
    + reflexivity.
  - destruct s as [|c s].
    + constructor.
    + rewrite replace_scan_miss by exact E.
      apply removed_next; [exact E|].
      apply (IH (List.length s)); [subst n; simpl; lia | reflexivity].
Qed.

(** [str.replace] with an empty replacement removes the marker. *)
Lemma removed_iff_replace (m s t : pystr) :
  m <> [] -> removed m s t <-> t = replace s m [].
Proof.
  intros Hm. destruct m as [|x m]; [congruence|]. unfold replace. split.
  - apply removed_unique, Hm.
  - intros ->. apply removed_replace_scan, Hm.
Qed.

Lemma lstrip_spaces (w s : pystr) :
  all_space w -> lstrip (w ++ s) = lstrip s.
Proof.
  induction 1 as [|c w Hc _ IH]; [reflexivity|].
  simpl. rewrite Hc. exact IH.
Qed.

Lemma lstrip_clean (c : N) (s : pystr) :
  isspace c = false -> lstrip (c :: s) = c :: s.
Proof. intros H. simpl. rewrite H. reflexivity. Qed.

Lemma all_space_rev (w : pystr) : all_space w -> all_space (rev w).
Proof. apply Forall_rev. Qed.

Lemma lstrip_all_space (w : pystr) : all_space w -> lstrip w = [].
Proof.
  intros H. rewrite <- (app_nil_r w). rewrite lstrip_spaces by exact H.
  reflexivity.
Qed.

Lemma lstrip_split (s : pystr) :
  exists w, s = (w ++ lstrip s)%list /\ all_space w.
Proof.
  induction s as [|c s (w & Hs & Hw)].
  - exists []. split; [reflexivity | constructor].
  - simpl. destruct (isspace c) eqn:Hc.
    + exists (c :: w). split; [simpl; f_equal; exact Hs|].
      constructor; assumption.
    + exists []. split; [reflexivity | constructor].
Qed.

Lemma lstrip_head (s : pystr) (c : N) (t : pystr) :
  lstrip s = c :: t -> isspace c = false.
Proof.
  induction s as [|d s IH]; simpl; [discriminate|].
  destruct (isspace d) eqn:Hd; [exact IH|].
  intros H. injection H as -> _. exact Hd.
Qed.

Lemma rstrip_split (s : pystr) :
  exists w, s = (rstrip s ++ w)%list /\ all_space w.
Proof.
  unfold rstrip. destruct (lstrip_split (rev s)) as (w & Hs & Hw).
  exists (rev w). split; [|apply all_space_rev, Hw].
  apply (f_equal (@rev N)) in Hs.
  rewrite rev_involutive, rev_app_distr in Hs. exact Hs.
Qed.

Lemma rstrip_last (s t : pystr) (c : N) :
  rstrip s = (t ++ [c])%list -> isspace c = false.
Proof.
  unfold rstrip. intros H.
  apply (f_equal (@rev N)) in H.
  rewrite rev_involutive, rev_app_distr in H. simpl in H.
  apply lstrip_head in H. exact H.
Qed.

Lemma rstrip_head (c : N) (s t : pystr) (d : N) :
  isspace c = false -> rstrip (c :: s) = d :: t -> d = c.
Proof.
  intros Hc H. destruct (rstrip_split (c :: s)) as (w & Hs & Hw).
  rewrite H in Hs. simpl in Hs. injection Hs as -> _. reflexivity.
Qed.

(** [str.strip] trims. *)
Lemma strip_trimmed (s : pystr) : trimmed s (strip s).
Proof.
  unfold strip.
  destruct (lstrip_split s) as (w1 & Hs1 & Hw1).
  destruct (rstrip_split (lstrip s)) as (w2 & Hs2 & Hw2).
  exists w1, w2. repeat split; try assumption.
  - rewrite <- Hs2. exact Hs1.
  - intros c t' H.
    destruct (lstrip s) as [|d l] eqn:E.
    + discriminate H.
    + pose proof (lstrip_head _ _ _ E) as Hd.
      apply (rstrip_head _ _ _ _ Hd) in H. subst c. exact Hd.
  - intros t' c H. apply rstrip_last in H. exact H.
Qed.

Lemma rstrip_clean (t w : pystr) :
  all_space w ->
  (forall t' c, t = (t' ++ [c])%list -> isspace c = false) ->
  rstrip (t ++ w) = t.
Proof.
  intros Hw Hlast. unfold rstrip.
  rewrite rev_app_distr, lstrip_spaces by (apply all_space_rev, Hw).
  destruct (rev t) as [|c r] eqn:E.
  - apply (f_equal (@rev N)) in E. rewrite rev_involutive in E.
    subst t. reflexivity.
  - assert (Ht : t = (rev r ++ [c])%list).
    { apply (f_equal (@rev N)) in E. rewrite rev_involutive in E.
      exact E. }
    rewrite lstrip_clean by (apply (Hlast _ _ Ht)).
    symmetry. exact Ht.
Qed.

Lemma trimmed_unique (s t : pystr) : trimmed s t -> t = strip s.
Proof.
  intros (w1 & w2 & -> & Hw1 & Hw2 & Hhd & Hlast).
  unfold strip. rewrite lstrip_spaces by exact Hw1.
  destruct t as [|c t].
  - simpl. rewrite lstrip_all_space by exact Hw2. reflexivity.
  - cbn [app]. rewrite lstrip_clean by (apply (Hhd _ _ eq_refl)).
    symmetry. apply (rstrip_clean (c :: t)); assumption.
Qed.

Lemma trimmed_iff_strip (s t : pystr) : trimmed s t <-> t = strip s.
Proof.
  split; [apply trimmed_unique | intros ->; apply strip_trimmed].
Qed.

(** The relation of the specification is the function of the code. *)
Lemma fences_removed_and_trimmed_iff (text c : pystr) :
  fences_removed_and_trimmed text c <-> c = cleaned text.
Proof.
  unfold fences_removed_and_trimmed, cleaned. split.
  - intros (a & b & Ha & Hb & Hc).
    apply removed_iff_replace in Ha; [|discriminate].
    apply removed_iff_replace in Hb; [|discriminate].
    apply trimmed_iff_strip in Hc. subst. reflexivity.
  - intros ->. eexists _, _. split; [|split].
    + apply removed_iff_replace; [discriminate | reflexivity].
    + apply removed_iff_replace; [discriminate | reflexivity].
    + apply strip_trimmed.
Qed.

End Trimming.

(* ================================================================== *)
(** * The decoder and white space *)
(* ================================================================== *)

Module json_facts.
Import json.

Section Limits.

Variable lim : limits.

Local Abbreviation step := (json.step lim).
Local Abbreviation run := (json.run lim).
Local Abbreviation finish := (json.finish lim).
Local Abbreviation begin_value := (json.begin_value lim).
Local Abbreviation num_char := (json.num_char lim).
Local Abbreviation num_value := (json.num_value lim).

Lemma run_app (s : state) (a b : pystr) :
  run s (a ++ b) = run (run s a) b.
Proof. apply fold_left_app. Qed.

Lemma run_Fail (t : pystr) : run Fail t = Fail.
Proof. induction t as [|c t IH]; [reflexivity | exact IH]. Qed.

Lemma isspace_cases (c : N) :
  isspace c = true ->
  In c [9; 10; 11; 12; 13; 28; 29; 30; 31; 32; 133; 160; 5760;
        8192; 8193; 8194; 8195; 8196; 8197; 8198; 8199; 8200; 8201; 8202;
        8232; 8233; 8239; 8287; 12288].
Proof.
  unfold isspace. intros H.
  repeat rewrite orb_true_iff in H. repeat rewrite andb_true_iff in H.
  repeat rewrite N.leb_le in H. repeat rewrite N.eqb_eq in H.
  cbn [In]. lia.
Qed.

Ltac each_space H :=
  apply isspace_cases in H; cbn [In] in H;
  repeat (destruct H as [<- | H]); [.. | contradiction].

Lemma deliver_expects_no_space (v : pyvalue) (stack : list frame) :
  expects_no_space (deliver v stack).
Proof.
  destruct stack as [|[items | d [k|]] up]; exact I.
Qed.

Lemma after_value_expects_no_space (s : state) (c : N) :
  expects_no_space (after_value s c).
Proof.
  destruct s as [|v|stack l]; cbn; try exact I.
  - destruct (is_ws c); exact I.
  - destruct l; try exact I.
    destruct (is_ws c); [exact I|].
    destruct (c =? 44).
    { destruct stack as [|[items | d [k|]] up]; exact I. }
    destruct (c =? 93).
    { destruct stack as [|[items | d [k|]] up];
        try exact I; apply deliver_expects_no_space. }
    destruct (c =? 125); [|exact I].
    destruct stack as [|[items | d [k|]] up];
      try exact I; apply deliver_expects_no_space.
Qed.

Lemma begin_value_expects_no_space (stack : list frame) (c : N) :
  expects_no_space (begin_value stack c).
Proof.
  unfold begin_value.
  repeat match goal with
    | |- context [if ?b then _ else _] => destruct b
    end;
    try exact I; cbn; repeat constructor.
Qed.

Lemma step_expects_no_space (s : state) (c : N) :
  expects_no_space s -> expects_no_space (step s c).
Proof.
  intros Hs. destruct s as [|v|stack l]; [exact I| |].
  { apply after_value_expects_no_space. }
  destruct l; cbn [step].
  - destruct (is_ws c); [exact I | apply begin_value_expects_no_space].
  - destruct (is_ws c); [exact I|].
    destruct (c =? 93); [|apply begin_value_expects_no_space].
    destruct stack as [|[items | d [k|]] up];
      try exact I; apply deliver_expects_no_space.
  - destruct (is_ws c); [exact I|].
    destruct (c =? 125).
    { destruct stack as [|[items | d [k|]] up];
        try exact I; apply deliver_expects_no_space. }
    destruct (c =? 34); exact I.
  - destruct (is_ws c); [exact I|]. destruct (c =? 34); exact I.
  - destruct (is_ws c); [exact I|]. destruct (c =? 58); exact I.
  - apply after_value_expects_no_space.
  - unfold str_step, end_string.
    repeat match goal with
      | |- context [if ?b then _ else _] => destruct b
      | |- context [match ?x with _ => _ end] => destruct x
      end;
      try exact I; apply deliver_expects_no_space.
  - assert (H : expects_no_space (num_char stack n c)).
    { unfold num_char. destruct (num_step n c); try exact I.
      destruct (num_value n); [|exact I].
      apply after_value_expects_no_space. }
    destruct n; try exact H.
    destruct (c =? 73); [|exact H]. cbn. repeat constructor.
  - destruct rest as [|x rest]; [exact I|].
    destruct (c =? x); [|exact I].
    destruct rest as [|y rest]; [apply deliver_expects_no_space|].
    cbn in Hs |- *. inversion Hs; assumption.
Qed.

Lemma run_expects_no_space (t : pystr) (s : state) :
  expects_no_space s -> expects_no_space (run s t).
Proof.
  revert s; induction t as [|c t IH]; intros s Hs; [exact Hs|].
  apply IH, step_expects_no_space, Hs.
Qed.

(** White space completes nothing: a text that is a value once white
    space is read was a value before. *)
Lemma space_step (s : state) (c : N) (v : pyvalue) :
  expects_no_space s -> isspace c = true ->
  finish (step s c) = inr v -> finish s = inr v.
Proof.
  intros Hs Hc H.
  destruct s as [|v0|stack l].
  - discriminate H.
  - each_space Hc; cbn in H; first [exact H | discriminate H].
  - destruct l as [| | | | | |k acc p ss|n|rest v0].
    1-6: each_space Hc; cbn in H;
      repeat match type of H with
        | context [match ?x with _ => _ end] => destruct x; cbn in H
        end;
      discriminate H.
    + destruct ss; each_space Hc; cbn in H;
        repeat match type of H with
          | context [match ?x with _ => _ end] => destruct x; cbn in H
          end;
        discriminate H.
    + destruct n; each_space Hc; cbn in H |- *;
        try destruct (digits_allowed lim digits);
        cbn in H |- *; try discriminate H;
        destruct stack as [|[items | d [key|]] up]; cbn in H |- *;
        first [exact H | discriminate H].
    + destruct rest as [|x rest]; [discriminate H|].
      cbn in Hs. inversion Hs as [|? ? Hx _]; subst.
      cbn [step] in H. destruct (N.eqb_spec c x) as [->|_].
      * congruence.
      * discriminate H.
Qed.

Lemma spaces_after (w : pystr) (s : state) (v : pyvalue) :
  expects_no_space s -> all_space w ->
  finish (run s w) = inr v -> finish s = inr v.
Proof.
  intros Hs Hw; revert s Hs.
  induction Hw as [|c w Hc _ IH]; intros s Hs H; [exact H|].
  apply (space_step s c v Hs Hc).
  apply IH; [apply step_expects_no_space, Hs | exact H].
Qed.

Lemma space_at_start (c : N) :
  isspace c = true -> step start c = start \/ step start c = Fail.
Proof.
  intros Hc. each_space Hc; cbn; auto.
Qed.

Lemma spaces_before (w t : pystr) (v : pyvalue) :
  all_space w ->
  finish (run start (w ++ t)) = inr v -> finish (run start t) = inr v.
Proof.
  induction 1 as [|c w Hc _ IH]; intros H; [exact H|].
  cbn [app run fold_left] in H.
  destruct (space_at_start c Hc) as [E|E]; rewrite E in H.
  - apply IH, H.
  - change (fold_left step (w ++ t)%list Fail) with (run Fail (w ++ t)) in H.
    rewrite run_Fail in H. discriminate H.
Qed.

(** What [json.loads] accepts, it accepts trimmed, with the same value. *)
Lemma loads_within_strip (text : pystr) (v : pyvalue) :
  loads_within lim text = inr v -> loads_within lim (strip text) = inr v.
Proof.
  unfold loads_within. intros H.
  destruct (strip_trimmed text) as (w1 & w2 & Ht & Hw1 & Hw2 & _).
  rewrite Ht in H. apply spaces_before in H; [|exact Hw1].
  rewrite run_app in H.
  apply spaces_after in H; [exact H | | exact Hw2].
  apply run_expects_no_space. exact I.
Qed.

End Limits.

Lemma loads_strip (text : pystr) (v : pyvalue) :
  loads text = inr v -> loads (strip text) = inr v.
Proof. apply loads_within_strip. Qed.

End json_facts.

(* ================================================================== *)
(** * Traces and outcomes of computations *)
(* ================================================================== *)

Section Computations.

Context {A B : Type}.

Lemma trace_bind (m : Py A) (k : A -> Py B) :
  trace (bind m k)
  = (trace m ++ match outcome m with
                | inl _ => []
                | inr a => trace (k a)
                end)%list.
Proof.
  destruct m as [t [e|a]]; cbn.
  - rewrite app_nil_r. reflexivity.
  - destruct (k a). reflexivity.
Qed.

Lemma outcome_bind (m : Py A) (k : A -> Py B) :
  outcome (bind m k)
  = match outcome m with
    | inl e => inl e
    | inr a => outcome (k a)
    end.
Proof.
  destruct m as [t [e|a]]; cbn; [reflexivity|]. destruct (k a). reflexivity.
Qed.

Lemma trace_try_except (body : Py A) (handler : pyexc -> Py A) :
  trace (try_except body handler)
  = (trace body ++ match outcome body with
                   | inl e => trace (handler e)
                   | inr _ => []
                   end)%list.
Proof.
  destruct body as [t [e|a]]; cbn.
  - destruct (handler e). reflexivity.
  - rewrite app_nil_r. reflexivity.
Qed.

Lemma outcome_try_except (body : Py A) (handler : pyexc -> Py A) :
  outcome (try_except body handler)
  = match outcome body with
    | inl e => outcome (handler e)
    | inr a => inr a
    end.
Proof.
  destruct body as [t [e|a]]; cbn; [|reflexivity].
  destruct (handler e). reflexivity.
Qed.

End Computations.

(* ================================================================== *)
(** * The normalizer, [extract_json_from_text] *)
(* ================================================================== *)

Section Normalizer.

Variable json_loads : pystr -> result pyvalue.

Lemma extract_json_from_text_cleaned (text : pystr) :
  outcome (extract_json_from_text json_loads text)
  = inr match json_loads (cleaned text) with
        | inr v => v
        | inl _ => PyNone
        end.
Proof.
  unfold extract_json_from_text, cleaned, fence_json, fence, lift, try_except.
  destruct (json_loads _); reflexivity.
Qed.

Lemma extract_json_from_text_same_cleaned (a b : pystr) :
  cleaned a = cleaned b ->
  extract_json_from_text json_loads a = extract_json_from_text json_loads b.
Proof.
  intros H. unfold extract_json_from_text.
  change (strip (replace (replace a (py "```json") []) (py "```") []))
    with (cleaned a).
  change (strip (replace (replace b (py "```json") []) (py "```") []))
    with (cleaned b).
  rewrite H. reflexivity.
Qed.

(** C7.  Extracting a text wrapped as ["```json" ++ x ++ "```"] gives what
    extracting [x] gives: the same value and the same log.  It holds for
    every text [x], a valid JSON object or not. *)
Theorem extract_json_from_text_wrap (x : pystr) :
  extract_json_from_text json_loads (py "```json" ++ x ++ py "```")
  = extract_json_from_text json_loads x.
Proof.
  apply extract_json_from_text_same_cleaned. apply cleaned_wrap.
Qed.

(** C8.  For every text, [extract_json_from_text] returns what
    [json.loads] gives on the text with the markers ["```json"] and
    ["```"] removed and the white space around it trimmed, and [None]
    when [json.loads] raises there; that remainder is determined by the
    text. *)
Theorem extract_json_from_text_spec (text : pystr) :
  exists c : pystr,
    fences_removed_and_trimmed text c
    /\ (forall c', fences_removed_and_trimmed text c' -> c' = c)
    /\ outcome (extract_json_from_text json_loads text)
       = inr match json_loads c with
             | inr v => v
             | inl _ => PyNone
             end.
Proof.
  exists (cleaned text). split; [|split].
  - apply fences_removed_and_trimmed_iff. reflexivity.
  - intros c' H. apply fences_removed_and_trimmed_iff in H. exact H.
  - apply extract_json_from_text_cleaned.
Qed.

(** C9.  [extract_json_from_text] returns for every text and never
    raises: its result is the value [json.loads] gave, or [None]. *)
Theorem extract_json_from_text_total (text : pystr) :
  exists v : pyvalue,
    outcome (extract_json_from_text json_loads text) = inr v
    /\ (json_loads (cleaned text) = inr v
        \/ (v = PyNone /\ exists e, json_loads (cleaned text) = inl e)).
Proof.
  rewrite extract_json_from_text_cleaned.
  destruct (json_loads (cleaned text)) as [e|v] eqn:E.
  - exists PyNone. split; [reflexivity|]. right. split; [reflexivity|].
    exists e. reflexivity.
  - exists v. split; [reflexivity|]. left. reflexivity.
Qed.

End Normalizer.

(* ================================================================== *)
(** * The gateway, [analyse_food] *)
(* ================================================================== *)

Section Gateway.

Variable json_loads : pystr -> result pyvalue.

Ltac go :=
  cbn -[prompt the_generation_config extract_json_from_text strip py].

(** C2.  When the environment holds no credential at start (the variable
    is unset or empty), no model client is configured, and for every
    upload, an image or not, the handler raises the 503 error with detail
    "Gemini AI not configured." without a call: the file is not read and
    no model is invoked. *)
Theorem analyse_food_not_configured
    (genai : pystr -> pystr -> GenerativeModel)
    (GEMINI_API_KEY : option pystr)
    (gemini_model : option GenerativeModel) (file : UploadFile) :
  GEMINI_API_KEY = None \/ GEMINI_API_KEY = Some [] ->
  outcome (load_gemini_model genai GEMINI_API_KEY) = inr gemini_model ->
  gemini_model = None
  /\ analyse_food json_loads gemini_model file
     = ([], inl (HTTPException 503 (py "Gemini AI not configured.")))
  /\ respond (outcome (analyse_food json_loads gemini_model file))
     = Response 503 (detail_body (py "Gemini AI not configured.")).
Proof.
  intros Hkey Hload.
  assert (gemini_model = None) as ->.
  { destruct Hkey as [-> | ->]; cbn in Hload; congruence. }
  repeat split.
Qed.

(** C1.  With a model client configured, an upload whose declared media
    type does not begin with "image/" is answered with the 400 error with
    detail "Invalid file type. Upload an image."; the handler makes no
    call: the file is not read and the model is not invoked. *)
Theorem analyse_food_rejects_non_image
    (model : GenerativeModel) (file : UploadFile) (ctype : pystr) :
  content_type file = Some ctype ->
  startswith ctype (py "image/") = false ->
  analyse_food json_loads (Some model) file
  = ([], inl (HTTPException 400 (py "Invalid file type. Upload an image.")))
  /\ respond (outcome (analyse_food json_loads (Some model) file))
     = Response 400 (detail_body (py "Invalid file type. Upload an image.")).
Proof.
  intros Hct Hsw. unfold analyse_food. rewrite Hct, Hsw. split; reflexivity.
Qed.

(** C4 (the code at an upload without a declared media type).  With a
    model client configured, [file.content_type] is [None] and
    [None.startswith] raises an [AttributeError] before the [try]: the
    exception leaves the handler, and no 400 answer is made. *)
Theorem analyse_food_missing_content_type
    (model : GenerativeModel) (r : result bytes) :
  let file := {| content_type := None; read := r |} in
  let e := AttributeError
             (py "'NoneType' object has no attribute 'startswith'") in
  analyse_food json_loads (Some model) file = ([], inl e)
  /\ respond (outcome (analyse_food json_loads (Some model) file))
     = Unhandled e
  /\ respond (outcome (analyse_food json_loads (Some model) file))
     <> Response 400 (detail_body (py "Invalid file type. Upload an image.")).
Proof.
  cbn. repeat split. discriminate.
Qed.

(** C3.  With a model client configured and an upload declared as an
    image, when the read, the model call, [resolve] or [text] raises [e],
    or the text is absent, empty or blank (then [e] is the [ValueError]
    "Empty analysis response from Gemini API"), the handler raises the 500
    error whose detail is "Food analysis failed: " followed by [str(e)];
    nothing is returned. *)
Theorem analyse_food_failure
    (model : GenerativeModel) (file : UploadFile) (ctype : pystr)
    (e : pyexc) :
  content_type file = Some ctype ->
  startswith ctype (py "image/") = true ->
  analysis_fails model file ctype e ->
  outcome (analyse_food json_loads (Some model) file)
  = inl (HTTPException 500 (py "Food analysis failed: " ++ str_exc e))
  /\ respond (outcome (analyse_food json_loads (Some model) file))
     = Response 500
         (detail_body (py "Food analysis failed: " ++ str_exc e)).
Proof.
  intros Hct Hsw Hfail.
  assert (H : outcome (analyse_food json_loads (Some model) file)
              = inl (HTTPException 500
                       (py "Food analysis failed: " ++ str_exc e))).
  { unfold analyse_food. rewrite Hct, Hsw. cbn [negb].
    destruct Hfail as [e Hr | d e Hr Hg | d resp e Hr Hg Hres
                      | d resp e Hr Hg Hres Ht | d resp t Hr Hg Hres Ht He].
    - rewrite Hr. reflexivity.
    - rewrite Hr. go. rewrite Hg. reflexivity.
    - rewrite Hr. go. rewrite Hg. go. rewrite Hres. reflexivity.
    - rewrite Hr. go. rewrite Hg. go. rewrite Hres. go. rewrite Ht.
      reflexivity.
    - rewrite Hr. go. rewrite Hg. go. rewrite Hres. go. rewrite Ht.
      destruct He as [-> | (s & -> & Hs)].
      + reflexivity.
      + go. destruct (str_truthy s); [rewrite Hs|]; reflexivity. }
  split; [exact H | rewrite H; reflexivity].
Qed.


(** C10.  With a model client configured, every upload whose declared
    media type begins with "image/" passes the check, whatever its bytes
    are: the file is read, and the model is called with the prompt, the
    bytes as read and the media type as declared; the 400 error is not
    raised.  That call is the only use of the client: a client that
    answers this one call alike gives the same run, and what the client
    answers to it decides the run, an exception it raises there becoming
    the 500 error. *)
Theorem analyse_food_forwards
    (model : GenerativeModel) (file : UploadFile) (ctype : pystr)
    (image_data : bytes) :
  content_type file = Some ctype ->
  startswith ctype (py "image/") = true ->
  read file = inr image_data ->
  (exists rest : list event,
     trace (analyse_food json_loads (Some model) file)
     = FileRead
       :: GenerateContent prompt
            {| mime_type := ctype; data := image_data |}
            the_generation_config
       :: rest)
  /\ (forall d : pystr,
        outcome (analyse_food json_loads (Some model) file)
        <> inl (HTTPException 400 d))
  /\ (forall model' : GenerativeModel,
        generate_content model' prompt
          {| mime_type := ctype; data := image_data |} the_generation_config
        = generate_content model prompt
            {| mime_type := ctype; data := image_data |}
            the_generation_config ->
        analyse_food json_loads (Some model') file
        = analyse_food json_loads (Some model) file)
  /\ (forall e : pyexc,
        generate_content model prompt
          {| mime_type := ctype; data := image_data |} the_generation_config
        = inl e ->
        analyse_food json_loads (Some model) file
        = ([ FileRead;
             GenerateContent prompt
               {| mime_type := ctype; data := image_data |}
               the_generation_config;
             Log ERROR
               (cross_mark ++ py " Error analyzing food image: "
                ++ str_exc e) ],
           inl (HTTPException 500
                  (py "Food analysis failed: " ++ str_exc e))))
  /\ (forall (response : GenerateContentResponse) (t : pystr),
        generate_content model prompt
          {| mime_type := ctype; data := image_data |} the_generation_config
        = inr response ->
        resolve response = inr tt ->
        text response = inr (Some t) ->
        strip t <> [] ->
        exists report : pyvalue,
          outcome (analyse_food json_loads (Some model) file)
          = inr (envelope report)).
Proof.
  intros Hct Hsw Hr. unfold analyse_food. rewrite Hct, Hsw. cbn [negb].
  rewrite Hr. split; [|split; [|split; [|split]]].
  - rewrite trace_try_except, trace_bind.
    cbn [call outcome snd]. rewrite trace_bind.
    cbn [call trace fst app]. eexists. reflexivity.
  - intros d. rewrite outcome_try_except.
    match goal with |- context [match ?o with _ => _ end] => destruct o end;
      discriminate.
  - intros model' Hm. go. rewrite Hm. reflexivity.
  - intros e He. go. rewrite He. reflexivity.
  - intros response t Hg Hres Ht Hne. go. rewrite Hg. go. rewrite Hres. go.
    rewrite Ht. go.
    assert (Hts : str_truthy t = true).
    { destruct t; [contradiction Hne; reflexivity | reflexivity]. }
    rewrite Hts. destruct (strip t) as [|c s] eqn:Es; [congruence|].
    destruct (extract_json_from_text json_loads (c :: s)) as [tr [ex|v]] eqn:E.
    + pose proof (extract_json_from_text_cleaned json_loads (c :: s)) as Hp.
      rewrite E in Hp. discriminate Hp.
    + go. destruct (truthy v); eexists; reflexivity.
Qed.

End Gateway.

(* ================================================================== *)
(** * The service with the reference decoder *)
(* ================================================================== *)

Section Decoded.

Import json_facts.

(** C6, as the code has it.  For every text that [json.loads] reads as
    it stands as a JSON object (so a well-formed one, within the limits of
    the interpreter) and that holds no three backticks in a row, the
    normalizer returns the object [json.loads] reads from that text, so
    every field with the value given, and it returns the same for the text
    wrapped as ["```json" ++ text ++ "```"].  Of [json.loads] no more is
    used than that it reads a text it accepts in the same way without the
    white space around it. *)
Theorem extract_json_from_text_preserves
    (json_loads : pystr -> result pyvalue)
    (text : pystr) (obj : list (pystr * pyvalue)) :
  (forall (s : pystr) (v : pyvalue),
     json_loads s = inr v -> json_loads (strip s) = inr v) ->
  json_loads text = inr (PyDict obj) ->
  contains text (py "```") = false ->
  outcome (extract_json_from_text json_loads text) = inr (PyDict obj)
  /\ outcome (extract_json_from_text json_loads
                (py "```json" ++ text ++ py "```"))
     = inr (PyDict obj).
Proof.
  intros Htrim Hobj Hfence.
  assert (H : outcome (extract_json_from_text json_loads text)
              = inr (PyDict obj)).
  { rewrite extract_json_from_text_cleaned.
    rewrite (cleaned_without_fence text Hfence).
    rewrite (Htrim text _ Hobj). reflexivity. }
  split; [exact H|].
  rewrite (extract_json_from_text_same_cleaned json_loads _ text);
    [exact H | apply cleaned_wrap].
Qed.

(** C6, as stated, fails: a well-formed object whose advice holds three
    backticks comes back with another advice; and a well-formed object
    with an integer of 4301 digits, which an interpreter without the
    limit on digits reads, comes back as [None]. *)
Lemma extract_json_from_text_alters_backticks :
  json.loads fenced_advice_json = inr fenced_advice_given
  /\ outcome (extract_json_from_text json.loads fenced_advice_json)
     = inr fenced_advice_returned
  /\ field fenced_advice_given "recommendations"
     = Some (PyStr (py "Avoid ``` in text"))
  /\ field fenced_advice_returned "recommendations"
     = Some (PyStr (py "Avoid  in text"))
  /\ fenced_advice_returned <> fenced_advice_given
  /\ json.loads_within no_digit_limit long_integer_json
     = inr (PyDict [(py "calories", PyInt ((10 ^ 4301 - 1) / 9))])
  /\ contains long_integer_json (py "```") = false
  /\ outcome (extract_json_from_text json.loads long_integer_json)
     = inr PyNone.
Proof.
  repeat split; try (vm_compute; reflexivity).
  vm_compute. discriminate.
Qed.


(** ** The theorems at a request *)

Lemma analyse_food_not_configured_witness :
  (@None pystr = None \/ @None pystr = Some [])
  /\ @None GenerativeModel = None
  /\ analyse_food json.loads None apple_png
     = ([], inl (HTTPException 503 (py "Gemini AI not configured.")))
  /\ respond (outcome (analyse_food json.loads None apple_png))
     = Response 503 (detail_body (py "Gemini AI not configured.")).
Proof.
  split; [left; reflexivity|].
  apply (analyse_food_not_configured json.loads
           (fun _ _ => answering (Some apple_json)) None None apple_png).
  - left; reflexivity.
  - reflexivity.
Defined.

Lemma analyse_food_rejects_non_image_witness :
  startswith (py "application/pdf") (py "image/") = false
  /\ analyse_food json.loads (Some (answering (Some apple_json))) doc_pdf
     = ([], inl (HTTPException 400
                   (py "Invalid file type. Upload an image.")))
  /\ respond (outcome (analyse_food json.loads
                         (Some (answering (Some apple_json))) doc_pdf))
     = Response 400 (detail_body (py "Invalid file type. Upload an image.")).
Proof.
  split; [reflexivity|].
  apply (analyse_food_rejects_non_image json.loads
           (answering (Some apple_json)) doc_pdf (py "application/pdf"));
    reflexivity.
Defined.

Lemma analyse_food_failure_witness :
  outcome (analyse_food json.loads (Some (raising network_down)) apple_png)
  = inl (HTTPException 500
           (py "Food analysis failed: network is unreachable"))
  /\ respond (outcome (analyse_food json.loads
                         (Some (raising network_down)) apple_png))
     = Response 500
         (detail_body (py "Food analysis failed: network is unreachable")).
Proof.
  apply (analyse_food_failure json.loads (raising network_down) apple_png
           (py "image/png") network_down).
  - reflexivity.
  - reflexivity.
  - apply (generate_content_raises _ _ _ png_bytes); reflexivity.
Defined.


Lemma analyse_food_forwards_witness :
  (exists rest : list event,
     trace (analyse_food json.loads
              (Some (answering (Some apple_json))) apple_png)
     = FileRead
       :: GenerateContent prompt
            {| mime_type := py "image/png"; data := png_bytes |}
            the_generation_config
       :: rest)
  /\ (forall d : pystr,
        outcome (analyse_food json.loads
                   (Some (answering (Some apple_json))) apple_png)
        <> inl (HTTPException 400 d)).
Proof.
  destruct (analyse_food_forwards json.loads (answering (Some apple_json))
              apple_png (py "image/png") png_bytes
              eq_refl eq_refl eq_refl) as (H1 & H2 & _).
  split; [exact H1 | exact H2].
Defined.

Lemma extract_json_from_text_preserves_witness :
  json.loads apple_json = inr apple_report
  /\ contains apple_json (py "```") = false
  /\ outcome (extract_json_from_text json.loads apple_json)
     = inr apple_report
  /\ outcome (extract_json_from_text json.loads
                (py "```json" ++ apple_json ++ py "```"))
     = inr apple_report.
Proof.
  assert (Hl : json.loads apple_json = inr apple_report)
    by (vm_compute; reflexivity).
  assert (Hc : contains apple_json (py "```") = false)
    by (vm_compute; reflexivity).
  split; [exact Hl|]. split; [exact Hc|].
  exact (extract_json_from_text_preserves json.loads apple_json _
           loads_strip Hl Hc).
Defined.

(** ** The decoder at some texts *)

Example loads_keeps_last_of_equal_keys :
  json.loads (py "{" ++ quoted "a" ++ py ": 1, " ++ quoted "b" ++ py ": [], "
              ++ quoted "a" ++ py ": null}")
  = inr (PyDict [(py "a", PyNone); (py "b", PyList [])]).
Proof. vm_compute. reflexivity. Qed.

Example loads_numbers :
  json.loads (py "[-0, 12, 1.50, -2E-3, NaN, -Infinity]")
  = inr (PyList [ PyInt 0; PyInt 12;
                  PyFloat (FDecimal false 150 (-2));
                  PyFloat (FDecimal true 2 (-3));
                  PyFloat FNaN; PyFloat (FInfinity true) ]).
Proof. vm_compute. reflexivity. Qed.

Example loads_escapes :
  json.loads (dq ++ py "a\n\u00e9\ud83d\ude00" ++ dq)
  = inr (PyStr [97; 10; 233; 128512]).
Proof. vm_compute. reflexivity. Qed.

Example loads_rejects :
  json.loads (py "[1,]") = inl json.JSONDecodeError
  /\ json.loads (py "01") = inl json.JSONDecodeError
  /\ json.loads (py "{} x") = inl json.JSONDecodeError
  /\ json.loads (py "") = inl json.JSONDecodeError
  /\ json.loads ([160] ++ py "{}") = inl json.JSONDecodeError.
Proof. repeat split; vm_compute; reflexivity. Qed.

Example truthy_of_parsed :
  map (fun t => match json.loads (py t) with
                | inr v => truthy v
                | inl _ => false
                end)
      ["null"; "false"; "0"; "-0.0"; "1e-400"; "[]"; "{}";
       "1"; "5e-324"; "[0]"; "NaN"]%string
  = [false; false; false; false; false; false; false;
     true; true; true; true].
Proof. vm_compute. reflexivity. Qed.

(** ** The scenarios of the specification *)

Example scenario_apple :
  outcome (analyse_food json.loads
             (Some (answering (Some apple_json))) apple_png)
  = inr (envelope apple_report)
  /\ sent finite_floats
       (respond (outcome (analyse_food json.loads
                            (Some (answering (Some apple_json))) apple_png)))
     = (200%Z, Some (envelope apple_report)).
Proof. split; vm_compute; reflexivity. Qed.

Example scenario_apple_trace :
  trace (analyse_food json.loads (Some (answering (Some apple_json)))
           apple_png)
  = [ FileRead;
      GenerateContent prompt
        {| mime_type := py "image/png"; data := png_bytes |}
        the_generation_config;
      ResponseResolve ].
Proof. vm_compute. reflexivity. Qed.

Example scenario_pdf :
  respond (outcome (analyse_food json.loads
                      (Some (answering (Some apple_json))) doc_pdf))
  = Response 400 (detail_body (py "Invalid file type. Upload an image.")).
Proof. vm_compute. reflexivity. Qed.

Example scenario_malformed :
  outcome (extract_json_from_text json.loads
             (py "I cannot analyze this image"))
  = inr PyNone
  /\ outcome (analyse_food json.loads
                (Some (answering (Some (py "I cannot analyze this image"))))
                apple_png)
     = inr (envelope default_report).
Proof. split; vm_compute; reflexivity. Qed.

Example scenario_fenced_answer :
  outcome (extract_json_from_text json.loads
             (py "```json" ++ nl ++ apple_json ++ nl ++ py "```"))
  = inr apple_report.
Proof. vm_compute. reflexivity. Qed.

Example scenario_no_text :
  respond (outcome (analyse_food json.loads (Some (answering None))
                      apple_png))
  = Response 500
      (detail_body
         (py "Food analysis failed: Empty analysis response from Gemini API")).
Proof. vm_compute. reflexivity. Qed.

End Decoded.

(* ================================================================== *)
(** * More on the text that is parsed *)
(* ================================================================== *)

Section CleanedText.

Lemma contains_app_r (a b p : pystr) :
  contains (a ++ b) p = false -> contains b p = false.
Proof.
  induction a as [|c a IH]; intros H; [exact H|].
  apply contains_cons in H as [_ H]. apply IH, H.
Qed.

Lemma contains_app_l (a b p : pystr) :
  contains (a ++ b) p = false -> contains a p = false.
Proof.
  induction a as [|c a IH]; intros H.
  - destruct p as [|x p]; [|reflexivity].
    destruct b; discriminate H.
  - cbn [app] in H. apply contains_cons in H as [Hm Hc].
    cbn [contains]. rewrite (IH Hc), orb_false_r.
    destruct (startswith (c :: a) p) eqn:E; [|reflexivity].
    apply (startswith_app _ b) in E. cbn [app] in E. congruence.
Qed.

Lemma contains_strip (u p : pystr) :
  contains u p = false -> contains (strip u) p = false.
Proof.
  intros H. destruct (strip_trimmed u) as (w1 & w2 & Hu & _).
  rewrite Hu in H. apply contains_app_r in H. apply contains_app_l in H.
  exact H.
Qed.

(** What is left after the removal begins with a backtick only if the
    text did. *)
Lemma removed_fence_head (s t : pystr) :
  removed fence s t ->
  (forall s', s <> 96 :: s') -> forall t', t <> 96 :: t'.
Proof.
  intros H Hs. destruct H as [|s t H|c s t Hm H]; intros t' E.
  - discriminate E.
  - apply (Hs (96 :: 96 :: s)). reflexivity.
  - injection E as -> _. apply (Hs s). reflexivity.
Qed.

Lemma removed_fence_clean (s t : pystr) :
  removed fence s t -> contains t fence = false.
Proof.
  induction 1 as [|s t H IH|c s t Hm H IH]; [reflexivity|exact IH|].
  cbn [contains]. rewrite IH, orb_false_r.
  destruct (N.eqb_spec c 96) as [->|Hc].
  2:{ cbn. apply N.eqb_neq in Hc. rewrite Hc. reflexivity. }
  destruct H as [|s t H|d s t Hd H].
  - reflexivity.
  - discriminate Hm.
  - destruct (N.eqb_spec d 96) as [->|Hd'].
    2:{ cbn. apply N.eqb_neq in Hd'. rewrite Hd'. reflexivity. }
    assert (Hs : forall s', s <> 96 :: s').
    { intros s' ->. discriminate Hm. }
    destruct t as [|e t]; [reflexivity|].
    destruct (N.eqb_spec e 96) as [->|He].
    + exfalso. apply (removed_fence_head _ _ H Hs t). reflexivity.
    + cbn. apply N.eqb_neq in He. rewrite He. reflexivity.
Qed.

Lemma cleaned_no_fence (text : pystr) : contains (cleaned text) fence = false.
Proof.
  unfold cleaned. apply contains_strip.
  apply (removed_fence_clean (replace text fence_json [])).
  apply removed_iff_replace; [discriminate | reflexivity].
Qed.

Lemma strip_strip (u : pystr) : strip (strip u) = strip u.
Proof.
  symmetry. apply trimmed_unique.
  destruct (strip_trimmed u) as (w1 & w2 & _ & _ & _ & Hhd & Hlast).
  exists [], []. rewrite app_nil_r. repeat split; try constructor; assumption.
Qed.

Lemma cleaned_cleaned (text : pystr) : cleaned (cleaned text) = cleaned text.
Proof.
  rewrite (cleaned_without_fence _ (cleaned_no_fence text)).
  unfold cleaned. apply strip_strip.
Qed.

(** ** White space around the text *)

Lemma all_space_app (a b : pystr) :
  all_space a -> all_space b -> all_space (a ++ b).
Proof. intros Ha Hb. apply Forall_app. split; assumption. Qed.

Lemma strip_spaces (w1 w2 y : pystr) :
  all_space w1 -> all_space w2 -> strip (w1 ++ y ++ w2) = strip y.
Proof.
  intros H1 H2. symmetry. apply trimmed_unique.
  destruct (strip_trimmed y) as (a & b & Hy & Ha & Hb & Hhd & Hlast).
  exists (w1 ++ a)%list, (b ++ w2)%list. repeat split.
  - rewrite Hy at 1. rewrite <- !app_assoc. reflexivity.
  - apply all_space_app; assumption.
  - apply all_space_app; assumption.
  - exact Hhd.
  - exact Hlast.
Qed.

(** Characters that do not occur in the marker take no part in a match. *)
Lemma startswith_app_outside (m w : pystr) :
  (forall c, In c w -> ~ In c m) ->
  forall s, startswith (s ++ w) m = startswith s m.
Proof.
  intros Hw. induction m as [|x m IH]; intros s; [reflexivity|].
  assert (Hw' : forall c, In c w -> ~ In c m).
  { intros c Hc Hin. apply (Hw c Hc). right. exact Hin. }
  destruct s as [|d s]; cbn.
  - destruct w as [|c w]; [reflexivity|].
    destruct (N.eqb_spec c x) as [->|_]; [|reflexivity].
    exfalso. apply (Hw x); left; reflexivity.
  - rewrite (IH Hw'). reflexivity.
Qed.

Lemma replace_scan_outside_l (m new w s : pystr) :
  m <> [] -> (forall c, In c w -> ~ In c m) ->
  replace_scan m new (w ++ s) O = (w ++ replace_scan m new s O)%list.
Proof.
  intros Hm. induction w as [|c w IH]; intros Hw; [reflexivity|].
  cbn [app]. rewrite replace_scan_miss.
  - f_equal. apply IH. intros d Hd. apply Hw. right. exact Hd.
  - destruct m as [|x m]; [congruence|]. cbn.
    destruct (N.eqb_spec c x) as [->|_]; [|reflexivity].
    exfalso. apply (Hw x); left; reflexivity.
Qed.

Lemma replace_scan_outside_r (m new w : pystr) :
  m <> [] -> (forall c, In c w -> ~ In c m) ->
  forall (s : pystr) (k : nat), (k <= List.length s)%nat ->
    replace_scan m new (s ++ w) k = (replace_scan m new s k ++ w)%list.
Proof.
  intros Hm Hw. induction s as [|c s IH]; intros k Hk.
  - assert (k = O) by (simpl in Hk; lia). subst k. cbn [app].
    rewrite <- (app_nil_r w) at 1.
    rewrite replace_scan_outside_l by assumption. apply app_nil_r.
  - destruct k as [|k].
    + cbn [replace_scan app].
      change (startswith (c :: (s ++ w)%list) m)
        with (startswith ((c :: s) ++ w) m).
      rewrite (startswith_app_outside m w Hw).
      destruct (startswith (c :: s) m) eqn:E.
      * rewrite <- app_assoc. f_equal. apply IH.
        apply startswith_length in E. destruct m; [congruence|].
        simpl in *. lia.
      * cbn [app]. f_equal. apply IH. lia.
    + cbn [replace_scan app]. apply IH. simpl in Hk. lia.
Qed.

Lemma space_outside_fence_json (w : pystr) :
  all_space w -> forall c, In c w -> ~ In c fence_json.
Proof.
  intros Hw c Hc Hin. unfold all_space in Hw.
  rewrite Forall_forall in Hw. specialize (Hw c Hc).
  cbn in Hin.
  repeat (destruct Hin as [<- | Hin]; [discriminate Hw|]). exact Hin.
Qed.

Lemma space_outside_fence (w : pystr) :
  all_space w -> forall c, In c w -> ~ In c fence.
Proof.
  intros Hw c Hc Hin. apply (space_outside_fence_json w Hw c Hc).
  cbn in Hin |- *. tauto.
Qed.

Lemma replace_spaces (m w1 w2 s : pystr) :
  m <> [] ->
  (forall c, In c w1 -> ~ In c m) -> (forall c, In c w2 -> ~ In c m) ->
  replace (w1 ++ s ++ w2) m [] = (w1 ++ replace s m [] ++ w2)%list.
Proof.
  intros Hm H1 H2. destruct m as [|x m]; [congruence|]. unfold replace.
  rewrite replace_scan_outside_l by assumption.
  rewrite replace_scan_outside_r by (auto; lia). reflexivity.
Qed.

(** White space around a text does not change what is parsed. *)
Lemma cleaned_spaces (w1 w2 x : pystr) :
  all_space w1 -> all_space w2 -> cleaned (w1 ++ x ++ w2) = cleaned x.
Proof.
  intros H1 H2. unfold cleaned.
  rewrite (replace_spaces fence_json);
    [|discriminate|apply space_outside_fence_json, H1
     |apply space_outside_fence_json, H2].
  rewrite (replace_spaces fence);
    [|discriminate|apply space_outside_fence, H1
     |apply space_outside_fence, H2].
  apply strip_spaces; assumption.
Qed.

Lemma cleaned_strip (t : pystr) : cleaned (strip t) = cleaned t.
Proof.
  destruct (strip_trimmed t) as (w1 & w2 & Ht & H1 & H2 & _).
  rewrite Ht at 2. symmetry. apply cleaned_spaces; assumption.
Qed.

Lemma cleaned_fenced_block (w1 w2 x : pystr) :
  all_space w1 -> all_space w2 ->
  cleaned (fence_json ++ w1 ++ x ++ w2 ++ fence) = cleaned x.
Proof.
  intros H1 H2.
  replace (fence_json ++ w1 ++ x ++ w2 ++ fence)%list
    with (wrap (w1 ++ x ++ w2)).
  - rewrite cleaned_wrap. apply cleaned_spaces; assumption.
  - unfold wrap. rewrite <- !app_assoc. reflexivity.
Qed.

End CleanedText.

(* ================================================================== *)
(** * Every run of the handler *)
(* ================================================================== *)

Section Runs.

Variable json_loads : pystr -> result pyvalue.

Ltac go :=
  cbn -[prompt the_generation_config strip py cleaned startswith
        cross_mark warning_sign].

(** All the ways through [analyse_food], one goal each. *)
Ltac paths gm file :=
  unfold analyse_food, accepted;
  destruct gm as [model|];
  [ destruct (content_type file) as [ctype|];
    [ destruct (startswith ctype (py "image/"));
      [ cbn [negb];
        destruct (read file) as [e|image_data];
        [ go
        | go;
          destruct (generate_content model prompt _ the_generation_config)
            as [e|response];
          [ go
          | go;
            destruct (resolve response) as [e|[]];
            [ go
            | go;
              destruct (text response) as [e|[t|]];
              [ go
              | go;
                destruct (str_truthy t);
                [ destruct (strip t) as [|c s] eqn:Hstrip;
                  [ go
                  | unfold extract_json_from_text, try_except, lift;
                    change (strip (replace (replace (c :: s) (py "```json") [])
                                     (py "```") []))
                      with (cleaned (c :: s));
                    destruct (json_loads (cleaned (c :: s)))
                      as [e|v] eqn:Hparse;
                    [ go | go; destruct (truthy v) eqn:Htruthy; go ] ]
                | go ]
              | go ] ] ] ]
      | go ]
    | go ]
  | go ].

(** X1.  In every request the model is called at most once: no call
    unless the handler is past its checks and the file was read, and then
    one call with the fixed prompt and generation parameters, the bytes
    read and the media type declared.  The client is used for nothing
    else: two clients that answer that call alike give the same run; and
    it is used there: an exception the client raises at that call becomes
    the 500 error of the request. *)
Theorem analyse_food_model_calls
    (gemini_model : option GenerativeModel) (file : UploadFile) :
  filter is_model_call (trace (analyse_food json_loads gemini_model file))
  = (if accepted gemini_model file
     then
       match content_type file, read file with
       | Some ctype, inr image_data =>
           [GenerateContent prompt
              {| mime_type := ctype; data := image_data |}
              the_generation_config]
       | _, _ => []
       end
     else [])
  /\ (forall model1 model2 : GenerativeModel,
        (forall (ctype : pystr) (image_data : bytes),
           content_type file = Some ctype ->
           read file = inr image_data ->
           generate_content model1 prompt
             {| mime_type := ctype; data := image_data |}
             the_generation_config
           = generate_content model2 prompt
               {| mime_type := ctype; data := image_data |}
               the_generation_config) ->
        analyse_food json_loads (Some model1) file
        = analyse_food json_loads (Some model2) file)
  /\ (forall (model : GenerativeModel) (ctype : pystr) (image_data : bytes)
             (e : pyexc),
        content_type file = Some ctype ->
        startswith ctype (py "image/") = true ->
        read file = inr image_data ->
        generate_content model prompt
          {| mime_type := ctype; data := image_data |} the_generation_config
        = inl e ->
        outcome (analyse_food json_loads (Some model) file)
        = inl (HTTPException 500
                 (py "Food analysis failed: " ++ str_exc e))).
Proof.
  split; [|split].
  - paths gemini_model file; reflexivity.
  - intros model1 model2 Hsame. unfold analyse_food.
    destruct (content_type file) as [ctype|]; [|reflexivity].
    destruct (startswith ctype (py "image/")); [|reflexivity].
    cbn [negb].
    destruct (read file) as [e|image_data]; [reflexivity|].
    go. rewrite (Hsame ctype image_data eq_refl eq_refl). reflexivity.
  - intros model ctype image_data e Hct Hsw Hr He.
    unfold analyse_food. rewrite Hct, Hsw. cbn [negb].
    rewrite Hr. go. rewrite He. reflexivity.
Qed.

(** X2.  The upload is read exactly when a client is configured and the
    declared media type begins with "image/", and then once. *)
Theorem analyse_food_file_reads
    (gemini_model : option GenerativeModel) (file : UploadFile) :
  filter is_file_read (trace (analyse_food json_loads gemini_model file))
  = if accepted gemini_model file then [FileRead] else [].
Proof.
  paths gemini_model file; reflexivity.
Qed.

(** X3.  Every run of the handler on an upload ends in one of: the
    returned envelope; the handler's own 400, 500 or 503 error with a
    detail; or, only when a client is configured and the upload declares
    no media type, an exception that leaves the handler.  So whatever the
    framework can render, the status sent for a request that reached the
    handler is 200, 400, 500 or 503. *)
Theorem analyse_food_answers
    (renders : pyvalue -> bool)
    (gemini_model : option GenerativeModel) (file : UploadFile) :
  match respond (outcome (analyse_food json_loads gemini_model file)) with
  | Returned returned => exists report, returned = envelope report
  | Response status body =>
      (status = 400 \/ status = 500 \/ status = 503)%Z
      /\ exists detail, body = detail_body detail
  | Unhandled _ => gemini_model <> None /\ content_type file = None
  end
  /\ (let status :=
        fst (sent renders
               (respond (outcome (analyse_food json_loads gemini_model
                                    file)))) in
      status = 200 \/ status = 400 \/ status = 500 \/ status = 503)%Z.
Proof.
  paths gemini_model file;
    (split;
     [ first [ eexists; reflexivity
             | split; [discriminate | reflexivity]
             | split; [solve [auto] | eexists; reflexivity] ]
     | cbn [sent fst];
       match goal with
       | |- context [if ?b then _ else _] => destruct b
       | _ => idtac
       end; cbn; auto ]).
Qed.

(** X4.  The answer is the 400 error exactly when a client is configured
    and the upload declares a media type that does not begin with
    "image/"; nothing a collaborator raises is answered with 400. *)
Theorem analyse_food_invalid_input_iff
    (gemini_model : option GenerativeModel) (file : UploadFile) :
  (exists d, outcome (analyse_food json_loads gemini_model file)
             = inl (HTTPException 400 d))
  <-> gemini_model <> None
      /\ exists ctype, content_type file = Some ctype
                       /\ startswith ctype (py "image/") = false.
Proof.
  unfold analyse_food.
  destruct gemini_model as [model|]; cbn [outcome].
  2:{ split; [intros (d & H); discriminate H | intros [H _]; congruence]. }
  destruct (content_type file) as [ctype|].
  2:{ split; [intros (d & H); discriminate H
             | intros (_ & c & H & _); discriminate H]. }
  destruct (startswith ctype (py "image/")) eqn:Hsw; cbn [negb].
  - split.
    + intros (d & H). exfalso. rewrite outcome_try_except in H.
      match type of H with
      | context [match ?o with _ => _ end] => destruct o
      end; discriminate H.
    + intros (_ & c & Hc & Hf). injection Hc as <-. congruence.
  - split.
    + intros _. split; [discriminate|].
      exists ctype. split; [reflexivity | exact Hsw].
    + intros _. eexists. reflexivity.
Qed.

(** X5.  With the client decided at start from the environment, a request
    is answered with the 503 error exactly when the credential is unset
    or empty; with a credential in place no request is. *)
Theorem analyse_food_unavailable_iff
    (genai : pystr -> pystr -> GenerativeModel)
    (GEMINI_API_KEY : option pystr)
    (gemini_model : option GenerativeModel) (file : UploadFile) :
  outcome (load_gemini_model genai GEMINI_API_KEY) = inr gemini_model ->
  (exists d, outcome (analyse_food json_loads gemini_model file)
             = inl (HTTPException 503 d))
  <-> (GEMINI_API_KEY = None \/ GEMINI_API_KEY = Some []).
Proof.
  intros Hload.
  assert (Hgm : gemini_model = None
                <-> (GEMINI_API_KEY = None \/ GEMINI_API_KEY = Some [])).
  { destruct GEMINI_API_KEY as [[|c k]|]; cbn in Hload;
      injection Hload as <-; split; auto; try discriminate.
    intros [H|H]; discriminate H. }
  rewrite <- Hgm. clear Hgm Hload. split.
  - intros (d & H). revert H. paths gemini_model file;
      intros H; try discriminate H; reflexivity.
  - intros ->. eexists. reflexivity.
Qed.

(** X6.  The handler's own 500 error is always logged: when a run ends
    in it, its detail is "Food analysis failed: " followed by some [m],
    and the last call of the run is the one ERROR log of the run, with
    the same [m]; a run that ends in any other way (a returned envelope,
    the 400 or 503 error, an exception that leaves the handler) logs
    nothing at ERROR level. *)
Theorem analyse_food_failure_logged
    (gemini_model : option GenerativeModel) (file : UploadFile) :
  match outcome (analyse_food json_loads gemini_model file) with
  | inl (HTTPException 500 d) =>
      exists m : pystr,
        d = (py "Food analysis failed: " ++ m)%list
        /\ filter is_error_log
             (trace (analyse_food json_loads gemini_model file))
           = [Log ERROR
                (cross_mark ++ py " Error analyzing food image: " ++ m)]
        /\ last (trace (analyse_food json_loads gemini_model file)) FileRead
           = Log ERROR
               (cross_mark ++ py " Error analyzing food image: " ++ m)
  | _ =>
      filter is_error_log
        (trace (analyse_food json_loads gemini_model file))
      = []
  end.
Proof.
  paths gemini_model file;
    try reflexivity;
    (eexists; split; [reflexivity | split; reflexivity]).
Qed.

(** X7.  Whatever the handler returns is the envelope with [success]
    true, [source] "Gemini" and a report that is true as a value: the
    report is never [None], empty or another false value. *)
Theorem analyse_food_returns_report
    (gemini_model : option GenerativeModel) (file : UploadFile)
    (returned : pyvalue) :
  outcome (analyse_food json_loads gemini_model file) = inr returned ->
  exists report : pyvalue,
    returned = envelope report
    /\ truthy report = true
    /\ field returned "success" = Some (PyBool true)
    /\ field returned "source" = Some (PyStr (py "Gemini"))
    /\ field returned "report" = Some report.
Proof.
  paths gemini_model file; intros H; try discriminate H;
    injection H as <-; eexists; repeat split; try reflexivity.
  exact Htruthy.
Qed.

(** What a request that gets an answer from the model does, call by
    call. *)
Lemma analyse_food_success_run
    (model : GenerativeModel) (file : UploadFile) (ctype : pystr)
    (image_data : bytes) (response : GenerateContentResponse) (t : pystr) :
  content_type file = Some ctype ->
  startswith ctype (py "image/") = true ->
  read file = inr image_data ->
  generate_content model prompt
    {| mime_type := ctype; data := image_data |} the_generation_config
  = inr response ->
  resolve response = inr tt ->
  text response = inr (Some t) ->
  strip t <> [] ->
  analyse_food json_loads (Some model) file
  = ([ FileRead;
       GenerateContent prompt {| mime_type := ctype; data := image_data |}
         the_generation_config;
       ResponseResolve ]
     ++ trace (extract_json_from_text json_loads (strip t))
     ++ (if truthy (extracted json_loads t) then []
         else [Log WARNING (py "Raw Gemini output: " ++ strip t)]),
     inr (envelope (if truthy (extracted json_loads t)
                    then extracted json_loads t
                    else default_report)))%list.
Proof.
  intros Hct Hsw Hr Hg Hres Ht Hne.
  assert (Hts : str_truthy t = true).
  { destruct t; [contradiction Hne; reflexivity | reflexivity]. }
  unfold extracted. rewrite <- (cleaned_strip t).
  unfold analyse_food. rewrite Hct, Hsw. cbn [negb].
  rewrite Hr. go. rewrite Hg. go. rewrite Hres. go. rewrite Ht. go.
  rewrite Hts. destruct (strip t) as [|c s] eqn:Es; [congruence|].
  unfold extract_json_from_text, try_except, lift.
  change (strip (replace (replace (c :: s) (py "```json") []) (py "```") []))
    with (cleaned (c :: s)).
  destruct (json_loads (cleaned (c :: s))) as [e|v]; go.
  - reflexivity.
  - destruct (truthy v); go; rewrite ?app_nil_r; reflexivity.
Qed.

(** X8.  The report of a successful request is decided by the text of the
    model as it came: it is what [json.loads] gives for that text with the
    markers removed and the white space trimmed, when that is a true
    value, and the default report otherwise.  The handler's own
    [strip()] of the text changes nothing in it. *)
Theorem analyse_food_report_of_raw_text
    (model : GenerativeModel) (file : UploadFile) (ctype : pystr)
    (image_data : bytes) (response : GenerateContentResponse) (t : pystr) :
  content_type file = Some ctype ->
  startswith ctype (py "image/") = true ->
  read file = inr image_data ->
  generate_content model prompt
    {| mime_type := ctype; data := image_data |} the_generation_config
  = inr response ->
  resolve response = inr tt ->
  text response = inr (Some t) ->
  strip t <> [] ->
  outcome (analyse_food json_loads (Some model) file)
  = inr (envelope
           match json_loads
                   (strip (replace (replace t (py "```json") [])
                             (py "```") []))
           with
           | inr v => if truthy v then v else default_report
           | inl _ => default_report
           end).
Proof.
  intros Hct Hsw Hr Hg Hres Ht Hne.
  rewrite (analyse_food_success_run model file ctype image_data response t)
    by assumption.
  cbn [outcome snd]. unfold extracted, cleaned, fence_json, fence.
  destruct (json_loads _) as [e|v]; reflexivity.
Qed.

(** X9.  In a successful request the text of the model, stripped, is
    logged as "Raw Gemini output: ..." exactly when the default report is
    put in place of what was parsed. *)
Theorem analyse_food_raw_output_logged_iff
    (model : GenerativeModel) (file : UploadFile) (ctype : pystr)
    (image_data : bytes) (response : GenerateContentResponse) (t : pystr) :
  content_type file = Some ctype ->
  startswith ctype (py "image/") = true ->
  read file = inr image_data ->
  generate_content model prompt
    {| mime_type := ctype; data := image_data |} the_generation_config
  = inr response ->
  resolve response = inr tt ->
  text response = inr (Some t) ->
  strip t <> [] ->
  In (Log WARNING (py "Raw Gemini output: " ++ strip t))
     (trace (analyse_food json_loads (Some model) file))
  <-> truthy (extracted json_loads t) = false.
Proof.
  intros Hct Hsw Hr Hg Hres Ht Hne.
  rewrite (analyse_food_success_run model file ctype image_data response t)
    by assumption.
  cbn [trace fst]. split.
  - intros H. destruct (truthy (extracted json_loads t)); [|reflexivity].
    exfalso. rewrite app_nil_r in H.
    cbn [app In] in H.
    destruct H as [H|[H|[H|H]]]; try discriminate H.
    unfold extract_json_from_text, try_except, lift in H.
    destruct (json_loads _); cbn in H; [|contradiction].
    destruct H as [H|[]]. discriminate H.
  - intros ->. apply in_or_app. right. apply in_or_app. right.
    left. reflexivity.
Qed.

End Runs.

(* ================================================================== *)
(** * More on [extract_json_from_text] *)
(* ================================================================== *)

Section NormalizerMore.

Variable json_loads : pystr -> result pyvalue.

(** X10.  The text [extract_json_from_text] gives to [json.loads] never
    holds a code-fence marker: neither three backticks in a row nor
    "```json" occur in it, whatever the input. *)
Theorem cleaned_text_has_no_fence (text : pystr) :
  let cleaned :=
    strip (replace (replace text (py "```json") []) (py "```") []) in
  contains cleaned (py "```") = false
  /\ contains cleaned (py "```json") = false.
Proof.
  cbv zeta.
  change (strip (replace (replace text (py "```json") []) (py "```") []))
    with (cleaned text).
  pose proof (cleaned_no_fence text) as H. split; [exact H|].
  apply (contains_longer_pattern _ fence (py "json") H).
Qed.

(** X11.  Extracting is idempotent on the text: a text that was already
    cleaned (markers removed, trimmed) is parsed as it is, so extracting
    it gives what extracting the original gave, value and log. *)
Theorem extract_json_from_text_of_cleaned (text : pystr) :
  let cleaned :=
    strip (replace (replace text (py "```json") []) (py "```") []) in
  strip (replace (replace cleaned (py "```json") []) (py "```") [])
  = cleaned
  /\ extract_json_from_text json_loads cleaned
     = extract_json_from_text json_loads text.
Proof.
  cbv zeta.
  change (strip (replace (replace text (py "```json") []) (py "```") []))
    with (cleaned text).
  change (strip (replace (replace (cleaned text) (py "```json") [])
                   (py "```") []))
    with (cleaned (cleaned text)).
  split; [apply cleaned_cleaned|].
  apply extract_json_from_text_same_cleaned, cleaned_cleaned.
Qed.

(** X12.  White space before and after a text (any of the characters
    [str.strip()] removes) does not change what is extracted. *)
Theorem extract_json_from_text_spaces (w1 w2 x : pystr) :
  all_space w1 -> all_space w2 ->
  extract_json_from_text json_loads (w1 ++ x ++ w2)
  = extract_json_from_text json_loads x.
Proof.
  intros H1 H2.
  apply extract_json_from_text_same_cleaned, cleaned_spaces; assumption.
Qed.

(** X13.  A text in a markdown block, "```json", white space such as a
    line break, the text, white space, "```", is extracted as the text
    alone. *)
Theorem extract_json_from_text_fenced_block (w1 w2 x : pystr) :
  all_space w1 -> all_space w2 ->
  extract_json_from_text json_loads
    (py "```json" ++ w1 ++ x ++ w2 ++ py "```")
  = extract_json_from_text json_loads x.
Proof.
  intros H1 H2.
  apply extract_json_from_text_same_cleaned.
  apply (cleaned_fenced_block w1 w2 x H1 H2).
Qed.

Lemma strip_empty_all_space (s : pystr) : strip s = [] -> all_space s.
Proof.
  intros H. destruct (strip_trimmed s) as (w1 & w2 & Hs & H1 & H2 & _).
  rewrite H in Hs. rewrite Hs. apply all_space_app; assumption.
Qed.

Lemma strip_fenced_block (y : pystr) :
  strip (fence_json ++ y ++ fence) <> [].
Proof.
  intros H. apply strip_empty_all_space in H.
  inversion H as [|c l Hc _]. discriminate Hc.
Qed.

(** X14.  When the model puts its answer in such a markdown block, the
    request is answered as if the model had given the answer bare: the
    same report or the same error, for every upload. *)
Theorem analyse_food_fenced_answer
    (file : UploadFile) (w1 w2 x : pystr) :
  all_space w1 -> all_space w2 -> strip x <> [] ->
  outcome (analyse_food json_loads
             (Some (answering
                      (Some (py "```json" ++ w1 ++ x ++ w2 ++ py "```"))))
             file)
  = outcome (analyse_food json_loads (Some (answering (Some x))) file).
Proof.
  intros H1 H2 Hx.
  destruct (content_type file) as [ctype|] eqn:Hct.
  2:{ unfold analyse_food. rewrite Hct. reflexivity. }
  destruct (startswith ctype (py "image/")) eqn:Hsw.
  2:{ unfold analyse_food. rewrite Hct, Hsw. reflexivity. }
  destruct (read file) as [e|image_data] eqn:Hr.
  { unfold analyse_food. rewrite Hct, Hsw, Hr. reflexivity. }
  rewrite (analyse_food_success_run json_loads (answering (Some x)) file
             ctype image_data {| resolve := inr tt; text := inr (Some x) |}
             x Hct Hsw Hr eq_refl eq_refl eq_refl Hx).
  rewrite (analyse_food_success_run json_loads
             (answering (Some (py "```json" ++ w1 ++ x ++ w2 ++ py "```")))
             file ctype image_data
             {| resolve := inr tt;
                text := inr (Some (py "```json" ++ w1 ++ x ++ w2
                                   ++ py "```")) |}
             _ Hct Hsw Hr eq_refl eq_refl eq_refl).
  - cbn [outcome snd]. unfold extracted.
    rewrite <- (cleaned_fenced_block w1 w2 x H1 H2). reflexivity.
  - replace (py "```json" ++ w1 ++ x ++ w2 ++ py "```")%list
      with (fence_json ++ (w1 ++ x ++ w2) ++ fence)%list
      by (rewrite <- !app_assoc; reflexivity).
    apply strip_fenced_block.
Qed.

End NormalizerMore.

(* ================================================================== *)
(** * The further theorems at a request *)
(* ================================================================== *)

Section DecodedMore.

Lemma analyse_food_unavailable_iff_witness :
  (exists d, outcome (analyse_food json.loads None apple_png)
             = inl (HTTPException 503 d))
  <-> (@None pystr = None \/ @None pystr = Some []).
Proof.
  apply (analyse_food_unavailable_iff json.loads
           (fun _ _ => answering (Some apple_json)) None None apple_png).
  reflexivity.
Defined.

Lemma analyse_food_returns_report_witness :
  exists report : pyvalue,
    envelope apple_report = envelope report
    /\ truthy report = true
    /\ field (envelope apple_report) "success" = Some (PyBool true)
    /\ field (envelope apple_report) "source" = Some (PyStr (py "Gemini"))
    /\ field (envelope apple_report) "report" = Some report.
Proof.
  apply (analyse_food_returns_report json.loads
           (Some (answering (Some apple_json))) apple_png).
  vm_compute. reflexivity.
Defined.

Lemma analyse_food_report_of_raw_text_witness :
  outcome (analyse_food json.loads
             (Some (answering (Some (nl ++ apple_json ++ nl)))) apple_png)
  = inr (envelope
           match json.loads
                   (strip (replace (replace (nl ++ apple_json ++ nl)
                                      (py "```json") [])
                             (py "```") []))
           with
           | inr v => if truthy v then v else default_report
           | inl _ => default_report
           end).
Proof.
  apply (analyse_food_report_of_raw_text json.loads
           (answering (Some (nl ++ apple_json ++ nl))) apple_png
           (py "image/png") png_bytes
           {| resolve := inr tt;
              text := inr (Some (nl ++ apple_json ++ nl)) |});
    try reflexivity.
  vm_compute. discriminate.
Defined.

Lemma analyse_food_raw_output_logged_iff_witness :
  In (Log WARNING
        (py "Raw Gemini output: " ++ strip (py "I cannot analyze this image")))
     (trace (analyse_food json.loads
               (Some (answering (Some (py "I cannot analyze this image"))))
               apple_png))
  <-> truthy (extracted json.loads (py "I cannot analyze this image"))
      = false.
Proof.
  apply (analyse_food_raw_output_logged_iff json.loads
           (answering (Some (py "I cannot analyze this image"))) apple_png
           (py "image/png") png_bytes
           {| resolve := inr tt;
              text := inr (Some (py "I cannot analyze this image")) |});
    try reflexivity.
  vm_compute. discriminate.
Defined.

Lemma extract_json_from_text_spaces_witness :
  extract_json_from_text json.loads (nl ++ apple_json ++ py "  ")
  = extract_json_from_text json.loads apple_json.
Proof.
  apply (extract_json_from_text_spaces json.loads nl (py "  ") apple_json);
    repeat constructor.
Defined.

Lemma extract_json_from_text_fenced_block_witness :
  extract_json_from_text json.loads
    (py "```json" ++ nl ++ apple_json ++ nl ++ py "```")
  = extract_json_from_text json.loads apple_json.
Proof.
  apply (extract_json_from_text_fenced_block json.loads nl nl apple_json);
    repeat constructor.
Defined.

Lemma analyse_food_fenced_answer_witness :
  outcome (analyse_food json.loads
             (Some (answering
                      (Some (py "```json" ++ nl ++ apple_json ++ nl
                             ++ py "```"))))
             apple_png)
  = outcome (analyse_food json.loads (Some (answering (Some apple_json)))
               apple_png).
Proof.
  apply (analyse_food_fenced_answer json.loads apple_png nl nl apple_json);
    try (repeat constructor).
  vm_compute. discriminate.
Defined.

End DecodedMore.
